(** * MEETA DRIVE: the spreadsheet core of [meeta_drive.py]

    A shallow embedding of the cell addressing scheme, the formula
    evaluator, the cell store and the save/load operations, together with
    the properties the specification states about them.

    Conventions of the embedding:
    - a Python [str] is a [string]; characters are code points below 256,
      on which [\d] is [0-9] and [str.isspace] is the set given by
      [isspace] below;
    - a Python [int] is a [Z], and [int(str)] / [str(int)] convert numbers
      of any length;
    - a Python [dict] is an association list in insertion order;
    - a Python [float] is an abstract carrier with the operations the
      program uses (class [PyFloat]);
    - an exception is a value of [exn]; a function that can raise returns a
      [result];
    - [st.session_state] is an explicit [session] record passed in and out. *)

From Stdlib Require Import ZArith Lia List Bool Ascii String QArith.
Import ListNotations.

Open Scope string_scope.
Open Scope Z_scope.

(* ================================================================== *)
(** * Python string primitives                                         *)
(* ================================================================== *)

(** [ord(c)] and [chr(n)]. *)
Definition ord (c : ascii) : Z := Z.of_N (N_of_ascii c).
Definition chr (n : Z) : ascii := ascii_of_N (Z.to_N n).

Definition is_upper (c : ascii) : bool := (65 <=? ord c) && (ord c <=? 90).
Definition is_digit (c : ascii) : bool := (48 <=? ord c) && (ord c <=? 57).

(** [str.isspace] on one character: TAB..CR, FS..US, SPACE, NEL, NBSP. *)
Definition isspace (c : ascii) : bool :=
  let n := ord c in
  ((9 <=? n) && (n <=? 13)) || ((28 <=? n) && (n <=? 32))
  || (n =? 133) || (n =? 160).

Fixpoint forallb_str (p : ascii -> bool) (s : string) : bool :=
  match s with
  | EmptyString => true
  | String c s' => p c && forallb_str p s'
  end.

(** [c in s] for a one-character needle. *)
Fixpoint contains (c : ascii) (s : string) : bool :=
  match s with
  | EmptyString => false
  | String d s' => Ascii.eqb d c || contains c s'
  end.

(** [s.startswith(p)]. *)
Fixpoint startswith (p s : string) : bool :=
  match p with
  | EmptyString => true
  | String a p' =>
      match s with
      | EmptyString => false
      | String b s' => Ascii.eqb a b && startswith p' s'
      end
  end.

(** [s.endswith(suf)]: some suffix of [s] is [suf]. *)
Fixpoint endswith (suf s : string) : bool :=
  String.eqb s suf ||
  match s with
  | EmptyString => false
  | String _ s' => endswith suf s'
  end.

(** [s[n:]]. *)
Fixpoint drop (n : nat) (s : string) : string :=
  match n, s with
  | O, _ => s
  | S _, EmptyString => EmptyString
  | S n', String _ s' => drop n' s'
  end.

(** [s[:-1]]. *)
Fixpoint drop_last (s : string) : string :=
  match s with
  | EmptyString => EmptyString
  | String c s' =>
      match s' with
      | EmptyString => EmptyString
      | String _ _ => String c (drop_last s')
      end
  end.

(** [s[n:-1]]. *)
Definition slice_to_last (n : nat) (s : string) : string := drop_last (drop n s).

Fixpoint lstrip (s : string) : string :=
  match s with
  | EmptyString => EmptyString
  | String c s' => if isspace c then lstrip s' else s
  end.

Fixpoint rstrip (s : string) : string :=
  match s with
  | EmptyString => EmptyString
  | String c s' =>
      match rstrip s' with
      | EmptyString => if isspace c then EmptyString else String c EmptyString
      | String _ _ as r => String c r
      end
  end.

(** [s.strip()]. *)
Definition strip (s : string) : string := rstrip (lstrip s).

(** [s.split(sep)] for a one-character separator: always at least one piece. *)
Fixpoint split (sep : ascii) (s : string) : list string :=
  match s with
  | EmptyString => [EmptyString]
  | String c s' =>
      if Ascii.eqb c sep then EmptyString :: split sep s'
      else match split sep s' with
           | h :: t => String c h :: t
           | [] => [String c EmptyString]
           end
  end.

(** [sep.join(pieces)]; used to build formula texts in statements. *)
Fixpoint join (sep : ascii) (pieces : list string) : string :=
  match pieces with
  | [] => EmptyString
  | [p] => p
  | p :: rest => p ++ String sep (join sep rest)
  end.

(** The longest prefix of [s] whose characters satisfy [p], and the rest. *)
Fixpoint span (p : ascii -> bool) (s : string) : string * string :=
  match s with
  | EmptyString => (EmptyString, EmptyString)
  | String c s' =>
      if p c then let '(a, b) := span p s' in (String c a, b)
      else (EmptyString, s)
  end.

Definition is_empty (s : string) : bool :=
  match s with EmptyString => true | String _ _ => false end.

(** [int(s)] on a string of decimal digits. *)
Definition int_of_digits (s : string) : Z :=
  fold_left (fun acc c => acc * 10 + (ord c - 48)) (list_ascii_of_string s) 0.

(** The decimal digits of a non-negative integer, most significant first. *)
Fixpoint str_digits (fuel : nat) (n : Z) : string :=
  match fuel with
  | O => EmptyString
  | S fuel' =>
      (if n <? 10 then EmptyString else str_digits fuel' (n / 10))
      ++ String (chr (48 + n mod 10)) EmptyString
  end.

(** [str(n)] for an [int]. *)
Definition str_of_int (n : Z) : string :=
  if n <? 0 then String "-" (str_digits (S (Z.to_nat (- n))) (- n))
  else str_digits (S (Z.to_nat n)) n.

(* ================================================================== *)
(** * Address codec                                                    *)
(* ================================================================== *)

(** The [while True] loop of [index_to_column]; [fuel] bounds the number of
    iterations and [index_to_column] supplies enough of it. *)
Fixpoint index_to_column_loop (fuel : nat) (index : Z) (result : string) : string :=
  match fuel with
  | O => result
  | S fuel' =>
      if 0 <=? index then
        let remainder := index mod 26 in
        let result := String (chr (65 + remainder)) result in
        let index := index / 26 - 1 in
        if index <? 0 then result
        else index_to_column_loop fuel' index result
      else result
  end.

Definition index_to_column (index : Z) : string :=
  index_to_column_loop (S (Z.to_nat index)) index EmptyString.

Definition column_to_index (column : string) : Z :=
  fold_left (fun result char => result * 26 + (ord char - 64))
            (list_ascii_of_string column) 0 - 1.

(** [re.match(r"([A-Z]+)(\d+)", s)]: anchored at the start only.  The two
    classes are disjoint, so the greedy groups are the longest runs and no
    backtracking helps. *)
Definition re_match_ref (s : string) : option (string * string) :=
  let '(letters, rest) := span is_upper s in
  if is_empty letters then None
  else
    let '(digits, _) := span is_digit rest in
    if is_empty digits then None else Some (letters, digits).

Record indices := { rowIndex : Z; colIndex : Z }.

Definition cell_ref_to_indices (cell_ref : string) : option indices :=
  match re_match_ref cell_ref with
  | None => None
  | Some (column, digits) =>
      let row := int_of_digits digits - 1 in
      let col := column_to_index column in
      Some {| rowIndex := row; colIndex := col |}
  end.

Definition indices_to_cell_ref (row_index col_index : Z) : string :=
  index_to_column col_index ++ str_of_int (row_index + 1).

(* ================================================================== *)
(** * Values, exceptions and dictionaries                              *)
(* ================================================================== *)

(** The exceptions the modelled code can meet. *)
Inductive exn := ValueError | IndexError | OSError | KeyError.

Inductive result (A : Type) :=
| Ok (a : A)
| Raise (e : exn).
Arguments Ok {A} a.
Arguments Raise {A} e.

Definition raises {A} (r : result A) : Prop := exists e, r = Raise e.

(** The content of a [value] or [formula] entry of a cell: the program
    stores [None] or a [str] there. *)
Inductive pyval := PNone | PStr (s : string).

(** [d.get(key)] on an entry that may be missing. *)
Definition get (entry : option pyval) : pyval :=
  match entry with Some v => v | None => PNone end.

(** Truth value of [None] / a [str]. *)
Definition truthy (v : pyval) : bool :=
  match v with PNone => false | PStr s => negb (is_empty s) end.

(** A Python [dict] with string keys, in insertion order. *)
Definition dict (V : Type) := list (string * V).

Fixpoint lookup {V} (k : string) (d : dict V) : option V :=
  match d with
  | [] => None
  | (k', v) :: d' => if String.eqb k' k then Some v else lookup k d'
  end.

(** [d[k] = v]: in place when the key exists, appended otherwise. *)
Fixpoint dict_set {V} (k : string) (v : V) (d : dict V) : dict V :=
  match d with
  | [] => [(k, v)]
  | (k', v') :: d' =>
      if String.eqb k' k then (k', v) :: d' else (k', v') :: dict_set k v d'
  end.

(** [range(lo, hi)]. *)
Definition range (lo hi : Z) : list Z :=
  map (fun k => lo + Z.of_nat k) (seq 0 (Z.to_nat (hi - lo))).

(** What the program needs of Python's [float]: the conversions [float(int)]
    and [float(str)] ([None] stands for [ValueError]), [+], the builtin
    [sum] over a list of floats, and [/]. *)
Class PyFloat := {
  float : Type;
  float_of_int : Z -> float;
  float_of_str : string -> option float;
  fadd : float -> float -> float;
  fsum : list float -> float;
  fdiv : float -> float -> float
}.

Section Core.

Context {fl : PyFloat}.

(** A Python number held in [sum_value]: the [int] it starts as, or a
    [float] once something was added. *)
Inductive pynum := PInt (z : Z) | PFloat (f : float).

Definition to_float (n : pynum) : float :=
  match n with PInt z => float_of_int z | PFloat f => f end.

(** [sum_value += f] for a float [f]. *)
Definition add_float (sum_value : pynum) (f : float) : pynum :=
  PFloat (fadd (to_float sum_value) f).

(** What [parse_formula] returns: a number or a text. *)
Inductive EvaluationResult := Number (n : pynum) | Text (s : string).

Record cell := {
  value : option pyval;
  formula : option pyval;
  cachedValue : option EvaluationResult
}.

(** A worksheet; its [columns] and [rows] entries are empty dictionaries
    that no modelled function reads or writes. *)
Record sheet := { id : string; name : string; cells : dict cell }.

(* ================================================================== *)
(** * Formula evaluator                                                *)
(* ================================================================== *)

(** The guarded body shared by the aggregation loops:
<<
    if cell_ref in sheet['cells'] and sheet['cells'][cell_ref].get('value'):
        try: ... float(sheet['cells'][cell_ref]['value'])
        except ValueError: pass
>>
    [numeric_value] is the float when the body reaches one. *)
Definition numeric_value (ws : sheet) (cell_ref : string) : option float :=
  match lookup cell_ref (cells ws) with
  | None => None
  | Some c =>
      match get (value c) with
      | PNone => None
      | PStr s => if truthy (PStr s) then float_of_str s else None
      end
  end.

(** One iteration of a [SUM] loop. *)
Definition sum_step (ws : sheet) (sum_value : pynum) (cell_ref : string) : pynum :=
  match numeric_value ws cell_ref with
  | Some f => add_float sum_value f
  | None => sum_value
  end.

(** One iteration of the [AVERAGE] loop. *)
Definition average_step (ws : sheet) (values : list float) (cell_ref : string)
  : list float :=
  match numeric_value ws cell_ref with
  | Some f => (values ++ [f])%list
  | None => values
  end.

(** The nested [for row ... for col ...] loops over a rectangle. *)
Definition for_rectangle {A} (body : A -> string -> A)
    (min_row max_row min_col max_col : Z) (init : A) : A :=
  fold_left
    (fun acc row =>
       fold_left (fun acc col => body acc (indices_to_cell_ref row col))
                 (range min_col (max_col + 1)) acc)
    (range min_row (max_row + 1)) init.

(** The [SUM] block: [None] when control falls out of the block. *)
Definition sum_block (formula_text : string) (ws : sheet)
  : option (result EvaluationResult) :=
  if startswith "SUM(" formula_text && endswith ")" formula_text then
    let range_text := slice_to_last 4 formula_text in
    if contains ":" range_text then
      match split ":" range_text with
      | [start_ref; end_ref] =>
          match cell_ref_to_indices start_ref, cell_ref_to_indices end_ref with
          | Some start_indices, Some end_indices =>
              let min_row := Z.min (rowIndex start_indices) (rowIndex end_indices) in
              let max_row := Z.max (rowIndex start_indices) (rowIndex end_indices) in
              let min_col := Z.min (colIndex start_indices) (colIndex end_indices) in
              let max_col := Z.max (colIndex start_indices) (colIndex end_indices) in
              Some (Ok (Number (for_rectangle (sum_step ws)
                                  min_row max_row min_col max_col (PInt 0))))
          | _, _ => None
          end
      | _ => Some (Raise ValueError)
      end
    else
      let cell_refs := map strip (split "," range_text) in
      Some (Ok (Number (fold_left (sum_step ws) cell_refs (PInt 0))))
  else None.

(** The [AVERAGE] block. *)
Definition average_block (formula_text : string) (ws : sheet)
  : option (result EvaluationResult) :=
  if startswith "AVERAGE(" formula_text && endswith ")" formula_text then
    let range_text := slice_to_last 8 formula_text in
    if contains ":" range_text then
      match split ":" range_text with
      | [start_ref; end_ref] =>
          match cell_ref_to_indices start_ref, cell_ref_to_indices end_ref with
          | Some start_indices, Some end_indices =>
              let min_row := Z.min (rowIndex start_indices) (rowIndex end_indices) in
              let max_row := Z.max (rowIndex start_indices) (rowIndex end_indices) in
              let min_col := Z.min (colIndex start_indices) (colIndex end_indices) in
              let max_col := Z.max (colIndex start_indices) (colIndex end_indices) in
              let values := for_rectangle (average_step ws)
                              min_row max_row min_col max_col [] in
              match values with
              | [] => Some (Ok (Number (PInt 0)))
              | _ :: _ =>
                  Some (Ok (Number (PFloat
                    (fdiv (fsum values)
                          (float_of_int (Z.of_nat (List.length values)))))))
              end
          | _, _ => None
          end
      | _ => Some (Raise ValueError)
      end
    else None
  else None.

Definition parse_formula (formula : string) (ws : sheet) : result EvaluationResult :=
  let formula_text :=
    if startswith "=" formula then strip (drop 1 formula) else strip formula in
  match sum_block formula_text ws with
  | Some r => r
  | None =>
      match average_block formula_text ws with
      | Some r => r
      | None => Ok (Text formula_text)
      end
  end.

(** The formula of a cell when [cell_data.get('formula')] is truthy. *)
Definition formula_of (cell_data : cell) : option string :=
  match get (formula cell_data) with
  | PNone => None
  | PStr s => if truthy (PStr s) then Some s else None
  end.

Definition set_cachedValue (cell_data : cell) (v : EvaluationResult) : cell :=
  {| value := value cell_data;
     formula := formula cell_data;
     cachedValue := Some v |}.

(** The loop of [evaluate_worksheet_formulas] over the items of
    [worksheet['cells']]: [done] holds the items already visited, [todo] the
    rest, and the worksheet the evaluator reads is the current one.  An
    exception leaves the cells written so far in place. *)
Fixpoint evaluate_cells (ws_id ws_name : string) (done todo : dict cell)
  : dict cell * result unit :=
  match todo with
  | [] => (done, Ok tt)
  | (cell_ref, cell_data) :: todo' =>
      match formula_of cell_data with
      | Some f =>
          let worksheet := {| id := ws_id; name := ws_name; cells := (done ++ todo)%list |} in
          match parse_formula f worksheet with
          | Ok v =>
              evaluate_cells ws_id ws_name
                (done ++ [(cell_ref, set_cachedValue cell_data v)])%list todo'
          | Raise e => ((done ++ todo)%list, Raise e)
          end
      | None =>
          evaluate_cells ws_id ws_name (done ++ [(cell_ref, cell_data)])%list todo'
      end
  end.

(** The worksheet after the call, and whether the call returned or raised. *)
Definition evaluate_worksheet_formulas (worksheet : sheet) : sheet * result unit :=
  let '(cells', r) :=
    evaluate_cells (id worksheet) (name worksheet) [] (cells worksheet) in
  ({| id := id worksheet; name := name worksheet; cells := cells' |}, r).

(* ================================================================== *)
(** * Cell store                                                       *)
(* ================================================================== *)

(** [st.session_state.spreadsheet_data]. *)
Record spreadsheet := { activeSheet : string; sheets : list sheet }.

(** The entries of [current_file] other than ['data'].  Its ['data'] entry
    is the very object held in [spreadsheet_data] (both [save_spreadsheet]
    and [load_spreadsheet] store the same dictionary in the two places), so
    it is not kept a second time. *)
Record file_info := {
  file_id : string;
  file_name : string;
  updatedAt : string;
  createdAt : string;
  userId : Z
}.

(** [st.session_state]; [data_directory] never changes and is left out. *)
Record session := {
  spreadsheet_data : spreadsheet;
  current_file : option file_info;
  is_modified : bool;
  formula_value : pyval;
  active_cell : option string
}.

(** The [data] argument of [update_cell]: the keys it carries. *)
Record cell_update := {
  d_value : option pyval;
  d_formula : option pyval;
  d_cachedValue : option EvaluationResult
}.

Definition empty_cell : cell :=
  {| value := None; formula := None; cachedValue := None |}.

(** [for key, value in data.items(): cell[key] = value]. *)
Definition merge (c : cell) (data : cell_update) : cell :=
  {| value := match d_value data with Some v => Some v | None => value c end;
     formula := match d_formula data with Some v => Some v | None => formula c end;
     cachedValue := match d_cachedValue data with
                    | Some v => Some v
                    | None => cachedValue c
                    end |}.

(** [next((s for s in sheets if s['id'] == sheet_id), None)]. *)
Fixpoint find_sheet (sheet_id : string) (l : list sheet) : option sheet :=
  match l with
  | [] => None
  | s :: l' => if String.eqb (id s) sheet_id then Some s else find_sheet sheet_id l'
  end.

(** The list after the sheet found by [find_sheet] was mutated into [s']. *)
Fixpoint replace_sheet (sheet_id : string) (s' : sheet) (l : list sheet) : list sheet :=
  match l with
  | [] => []
  | s :: l' =>
      if String.eqb (id s) sheet_id then s' :: l'
      else s :: replace_sheet sheet_id s' l'
  end.

Definition with_sheets (st : session) (active : string) (l : list sheet)
    (modified : bool) : session :=
  {| spreadsheet_data := {| activeSheet := active; sheets := l |};
     current_file := current_file st;
     is_modified := modified;
     formula_value := formula_value st;
     active_cell := active_cell st |}.

Definition update_cell (sheet_id cell_ref : string) (data : cell_update)
    (st : session) : session * result unit :=
  let doc := spreadsheet_data st in
  match find_sheet sheet_id (sheets doc) with
  | None => (st, Ok tt)
  | Some ws =>
      let old := match lookup cell_ref (cells ws) with
                 | Some c => c
                 | None => empty_cell
                 end in
      let ws1 := {| id := id ws; name := name ws;
                    cells := dict_set cell_ref (merge old data) (cells ws) |} in
      let '(ws2, r) :=
        match d_formula data, d_value data with
        | None, None => (ws1, Ok tt)
        | _, _ => evaluate_worksheet_formulas ws1
        end in
      (with_sheets st (activeSheet doc) (replace_sheet sheet_id ws2 (sheets doc)) true, r)
  end.

Definition default_sheet : sheet :=
  {| id := "sheet1"; name := "Sheet1"; cells := [] |}.

Definition new_spreadsheet (st : session) : session :=
  {| spreadsheet_data := {| activeSheet := "sheet1"; sheets := [default_sheet] |};
     current_file := None;
     is_modified := false;
     formula_value := PStr "";
     active_cell := None |}.

Definition add_sheet (st : session) : session :=
  let doc := spreadsheet_data st in
  let n := str_of_int (Z.of_nat (List.length (sheets doc)) + 1) in
  let sheet_id := "sheet" ++ n in
  let sheet_name := "Sheet" ++ n in
  let new_sheet := {| id := sheet_id; name := sheet_name; cells := [] |} in
  with_sheets st sheet_id (sheets doc ++ [new_sheet])%list true.

Definition remove_sheet (sheet_id : string) (st : session) : session * result unit :=
  let doc := spreadsheet_data st in
  if (List.length (sheets doc) <=? 1)%nat then (st, Ok tt)
  else
    let kept := filter (fun s => negb (String.eqb (id s) sheet_id)) (sheets doc) in
    if String.eqb (activeSheet doc) sheet_id then
      match kept with
      | first :: _ => (with_sheets st (id first) kept true, Ok tt)
      | [] => (with_sheets st (activeSheet doc) kept (is_modified st), Raise IndexError)
      end
    else (with_sheets st (activeSheet doc) kept true, Ok tt).

(** The loop of [rename_sheet]: the first sheet with the id is renamed;
    the flag tells whether one was found. *)
Fixpoint rename_first (sheet_id new_name : string) (l : list sheet)
  : list sheet * bool :=
  match l with
  | [] => ([], false)
  | s :: l' =>
      if String.eqb (id s) sheet_id
      then ({| id := id s; name := new_name; cells := cells s |} :: l', true)
      else let '(l'', found) := rename_first sheet_id new_name l' in (s :: l'', found)
  end.

Definition rename_sheet (sheet_id new_name : string) (st : session) : session :=
  let doc := spreadsheet_data st in
  let '(l, found) := rename_first sheet_id new_name (sheets doc) in
  with_sheets st (activeSheet doc) l (if found then true else is_modified st).

Definition set_active_sheet (sheet_id : string) (st : session) : session :=
  with_sheets st sheet_id (sheets (spreadsheet_data st)) (is_modified st).

(* ================================================================== *)
(** * Persistence                                                      *)
(* ================================================================== *)

(** [save_spreadsheet(name)].  [uuid] and [now] are the values
    [uuid.uuid4()] and [datetime.now().isoformat()] produce; [write_ok]
    tells whether [open] and [json.dump] went through. *)
Definition save_spreadsheet (name : pyval) (uuid now : string) (write_ok : bool)
    (st : session) : session * bool :=
  match truthy name, current_file st with
  | false, None => (st, false)
  | named, current =>
      let filename :=
        match name, current with
        | PStr s, _ => if named then s
                       else match current with Some f => file_name f | None => s end
        | PNone, Some f => file_name f
        | PNone, None => ""
        end in
      let fid := match current with Some f => file_id f | None => uuid end in
      let file_data :=
        {| file_id := fid;
           file_name := filename;
           updatedAt := now;
           createdAt := match current with Some f => createdAt f | None => now end;
           userId := 1 |} in
      if write_ok then
        ({| spreadsheet_data := spreadsheet_data st;
            current_file := Some file_data;
            is_modified := false;
            formula_value := formula_value st;
            active_cell := active_cell st |}, true)
      else (st, false)
  end.

(** What [json.load] gives for a record written by [save_spreadsheet]. *)
Record file_record := { info : file_info; data : spreadsheet }.

(** The loop [for sheet in ...['sheets']: evaluate_worksheet_formulas(sheet)]. *)
Fixpoint evaluate_sheets (l : list sheet) : list sheet * result unit :=
  match l with
  | [] => ([], Ok tt)
  | ws :: rest =>
      match evaluate_worksheet_formulas ws with
      | (ws', Ok _) => let '(rest', r) := evaluate_sheets rest in (ws' :: rest', r)
      | (ws', Raise e) => (ws' :: rest, Raise e)
      end
  end.

(** [load_spreadsheet(file_id)].  [read] is the outcome of opening and
    decoding the file: the record, or the exception raised. *)
Definition load_spreadsheet (read : result file_record) (st : session)
  : session * bool :=
  match read with
  | Raise _ => (st, false)
  | Ok file_data =>
      let doc := data file_data in
      let '(l, r) := evaluate_sheets (sheets doc) in
      ({| spreadsheet_data := {| activeSheet := activeSheet doc; sheets := l |};
          current_file := Some (info file_data);
          is_modified := false;
          formula_value := formula_value st;
          active_cell := active_cell st |},
       match r with Ok _ => true | Raise _ => false end)
  end.

(** The session the program starts with. *)
Definition initial_session : session :=
  {| spreadsheet_data := {| activeSheet := "sheet1"; sheets := [default_sheet] |};
     current_file := None;
     is_modified := false;
     formula_value := PStr "";
     active_cell := None |}.

(** The document invariant: the active-sheet pointer names a sheet of the
    document. *)
Definition active_sheet_valid (st : session) : Prop :=
  In (activeSheet (spreadsheet_data st)) (map id (sheets (spreadsheet_data st))).

End Core.

(* ================================================================== *)
(** * Vocabulary of the statements                                     *)
(* ================================================================== *)

(** Where the run stops. *)
Definition stops (p : ascii -> bool) (r : string) : Prop :=
  match r with
  | EmptyString => True
  | String c _ => p c = false
  end.

(** The accumulation of [column_to_index], from any start value. *)
Definition column_fold (column : string) (start : Z) : Z :=
  fold_left (fun result char => result * 26 + (ord char - 64))
            (list_ascii_of_string column) start.

Definition digits_fold (digits : string) (start : Z) : Z :=
  fold_left (fun acc c => acc * 10 + (ord c - 48))
            (list_ascii_of_string digits) start.

(** The pattern of the specification, covering the whole string: one or
    more capitals followed by one or more digits. *)
Definition is_reference (s : string) : Prop :=
  exists letters digits,
    s = letters ++ digits
    /\ is_empty letters = false /\ forallb_str is_upper letters = true
    /\ is_empty digits = false /\ forallb_str is_digit digits = true.

(** The same pattern at the start of the string, whatever follows. *)
Definition has_reference_prefix (s : string) : Prop :=
  exists letters digits rest,
    s = letters ++ digits ++ rest
    /\ is_empty letters = false /\ forallb_str is_upper letters = true
    /\ is_empty digits = false /\ forallb_str is_digit digits = true.

(** The text of a call [name(body)] with the formula prefix. *)
Definition call (name body : string) : string := "=" ++ name ++ "(" ++ body ++ ")".

(** The number of occurrences of a character. *)
Fixpoint count (c : ascii) (s : string) : nat :=
  match s with
  | EmptyString => O
  | String d s' => ((if Ascii.eqb d c then 1 else 0) + count c s')%nat
  end.

Section Vocabulary.

Context {fl : PyFloat}.

(** The references a range visits, row by row. *)
Definition rectangle_refs (min_row max_row min_col max_col : Z) : list string :=
  flat_map (fun row => map (indices_to_cell_ref row) (range min_col (max_col + 1)))
           (range min_row (max_row + 1)).

(** The rectangle spanned by two corners, whatever their order. *)
Definition visited (corner1 corner2 : indices) : list string :=
  rectangle_refs
    (Z.min (rowIndex corner1) (rowIndex corner2))
    (Z.max (rowIndex corner1) (rowIndex corner2))
    (Z.min (colIndex corner1) (colIndex corner2))
    (Z.max (colIndex corner1) (colIndex corner2)).

(** The numeric contents of the referenced cells, in visiting order: a
    reference that has none is left out. *)
Definition numeric_contents (ws : sheet) (refs : list string) : list float :=
  flat_map (fun r => match numeric_value ws r with
                     | Some f => [f]
                     | None => []
                     end) refs.

(** The three ways a visited reference has no numeric content. *)
Definition skipped (ws : sheet) (cell_ref : string) : Prop :=
  lookup cell_ref (cells ws) = None
  \/ (exists c, lookup cell_ref (cells ws) = Some c /\ truthy (get (value c)) = false)
  \/ (exists c s, lookup cell_ref (cells ws) = Some c
                  /\ value c = Some (PStr s) /\ float_of_str s = None).

(** The sum as the program accumulates it, from the integer 0. *)
Definition total (vals : list float) : pynum := fold_left add_float vals (PInt 0).

(** The mean of the values, and 0 when there are none. *)
Definition mean (vals : list float) : pynum :=
  match vals with
  | [] => PInt 0
  | _ :: _ => PFloat (fdiv (fsum vals) (float_of_int (Z.of_nat (List.length vals))))
  end.

(** What re-evaluation may do to one cell: nothing to its [value] and
    [formula], and nothing at all when it carries no formula. *)
Definition only_cache_written (c c' : cell) : Prop :=
  value c' = value c
  /\ formula c' = formula c
  /\ (formula_of c = None -> c' = c).

Definition same_key_only_cache_written (kc kc' : string * cell) : Prop :=
  fst kc' = fst kc /\ only_cache_written (snd kc) (snd kc').

Definition sheet_ids (st : session) : list string :=
  map id (sheets (spreadsheet_data st)).

(** A document as [save_spreadsheet] writes it after the formula
    [=SUM(A1:B1:C1)] was typed into A1 of the first sheet. *)
Definition two_colon_record : file_record :=
  {| info := {| file_id := "f1"; file_name := "Budget";
                updatedAt := "2024-01-01T00:00:00";
                createdAt := "2024-01-01T00:00:00"; userId := 1 |};
     data := {| activeSheet := "sheet1";
                sheets := [ {| id := "sheet1"; name := "Sheet1";
                               cells := [("A1", {| value := Some PNone;
                                                   formula := Some (PStr "=SUM(A1:B1:C1)");
                                                   cachedValue := None |})] |} ] |} |}.

(** The session after [new_spreadsheet], one edit and [add_sheet]. *)
Definition edited_session : session :=
  add_sheet (fst (update_cell "sheet1" "B2"
                    {| d_value := Some (PStr "7"); d_formula := Some PNone;
                       d_cachedValue := None |}
                    initial_session)).

End Vocabulary.

(* ================================================================== *)
(** * Display value and formula bar                                    *)
(* ================================================================== *)

Section Interface.

Context {fl : PyFloat}.

(** [str(x)] for a [float]. *)
Variable str_of_float : float -> string.

(** [str(v)] for what [parse_formula] returns. *)
Definition str_of_result (v : EvaluationResult) : string :=
  match v with
  | Number (PInt z) => str_of_int z
  | Number (PFloat f) => str_of_float f
  | Text s => s
  end.

(** [str(v)] for [None] or a [str]. *)
Definition str_of_pyval (v : pyval) : string :=
  match v with PNone => "None" | PStr s => s end.

(** [not cell] for a cell dictionary: it has no entry. *)
Definition no_entry (c : cell) : bool :=
  match value c, formula c, cachedValue c with
  | None, None, None => true
  | _, _, _ => false
  end.

Definition get_cell_display_value (c : cell) : string :=
  if no_entry c then ""
  else
    match formula_of c with
    | Some f =>
        match cachedValue c with
        | Some v => str_of_result v
        | None => f
        end
    | None =>
        match value c with
        | Some v => str_of_pyval v
        | None => ""
        end
    end.

Definition handle_cell_click (cell_ref : string) (st : session) : session :=
  let doc := spreadsheet_data st in
  let active_sheet := find_sheet (activeSheet doc) (sheets doc) in
  let shown :=
    match active_sheet with
    | None => PStr ""
    | Some ws =>
        match lookup cell_ref (cells ws) with
        | None => PStr ""
        | Some c =>
            match formula c with
            | Some f => f
            | None => match value c with Some v => v | None => PStr "" end
            end
        end
    end in
  {| spreadsheet_data := doc;
     current_file := current_file st;
     is_modified := is_modified st;
     formula_value := shown;
     active_cell := Some cell_ref |}.

(** [value and isinstance(value, str) and value.startswith('=')]. *)
Definition is_formula_text (v : pyval) : bool :=
  match v with
  | PNone => false
  | PStr s => truthy v && startswith "=" s
  end.

Definition commit_formula_value (st : session) : session * result unit :=
  match active_cell st with
  | None => (st, Ok tt)
  | Some cell_ref =>
      if is_empty cell_ref then (st, Ok tt)
      else
        let v := formula_value st in
        let active_sheet_id := activeSheet (spreadsheet_data st) in
        if is_formula_text v then
          update_cell active_sheet_id cell_ref
            {| d_value := Some PNone; d_formula := Some v; d_cachedValue := None |} st
        else
          update_cell active_sheet_id cell_ref
            {| d_value := Some v; d_formula := Some PNone; d_cachedValue := None |} st
  end.

End Interface.

(* ================================================================== *)
(** * Vocabulary of the further statements                             *)
(* ================================================================== *)

(** The accumulation of [column_to_index] over a list of characters. *)
Definition letters_fold (l : list ascii) (start : Z) : Z :=
  fold_left (fun result char => result * 26 + (ord char - 64)) l start.

Section Further_vocabulary.

Context {fl : PyFloat}.

(** The cell [update_cell] merges the update into. *)
Definition cell_before (ws : sheet) (cell_ref : string) : cell :=
  match lookup cell_ref (cells ws) with Some c => c | None => empty_cell end.

(** Two worksheets whose cells carry the same [value] entries. *)
Definition same_values (ws ws' : sheet) : Prop :=
  forall r, option_map value (lookup r (cells ws))
            = option_map value (lookup r (cells ws')).

(** What a completed re-evaluation pass over [ws] leaves in one item. *)
Definition refresh (ws : sheet) (kc : string * cell) : string * cell :=
  match formula_of (snd kc) with
  | None => kc
  | Some f =>
      match parse_formula f ws with
      | Ok v => (fst kc, set_cachedValue (snd kc) v)
      | Raise _ => kc
      end
  end.

(** Every formula of the worksheet evaluates on it. *)
Definition formulas_evaluate (ws : sheet) : Prop :=
  forall kc f, In kc (cells ws) -> formula_of (snd kc) = Some f ->
               exists v, parse_formula f ws = Ok v.

(** The sheets of the document have distinct ids. *)
Definition ids_distinct (st : session) : Prop :=
  NoDup (map id (sheets (spreadsheet_data st))).

(** The file information a session holds, as an option of each entry. *)
Definition saved_as (st : session) (fid created updated : string) : Prop :=
  exists f, current_file st = Some f
            /\ file_id f = fid /\ createdAt f = created /\ updatedAt f = updated.

End Further_vocabulary.

(* ================================================================== *)
(** * A model of [PyFloat] for running the definitions                 *)
(* ================================================================== *)

(** Decimal integer literals, with surrounding blanks and an optional
    sign: the numerals the examples use. *)
Definition decimal_of_str (s : string) : option Q :=
  let t := strip s in
  let '(sign, body) :=
    match t with
    | String "-" r => (-1, r)
    | String "+" r => (1, r)
    | _ => (1, t)
    end in
  if is_empty body || negb (forallb_str is_digit body) then None
  else Some (inject_Z (sign * int_of_digits body)).

(** Exact rational arithmetic on those numerals.  The theorems of this
    file are stated for every model of [PyFloat]; this one serves the
    concrete evaluations. *)
#[export] Instance exact_float : PyFloat := {|
  float := Q;
  float_of_int := inject_Z;
  float_of_str := decimal_of_str;
  fadd := fun x y => Qred (x + y);
  fsum := fun l => fold_left (fun a x => Qred (a + x)) l (inject_Z 0);
  fdiv := fun x y => Qred (x / y)
|}.

Definition literal (s : string) : cell :=
  {| value := Some (PStr s); formula := Some PNone; cachedValue := None |}.

Definition sheet_of (l : dict cell) : sheet :=
  {| id := "sheet1"; name := "Sheet1"; cells := l |}.

Definition sample_sheet : sheet :=
  sheet_of [("A1", literal "1"); ("A2", literal "2");
            ("B1", literal "x"); ("B2", literal "")].

Definition clear_value : cell_update :=
  {| d_value := Some (PStr ""); d_formula := Some PNone; d_cachedValue := None |}.

(** [str] of a number of the exact model: an integer as Python prints an
    integral float, anything else as numerator/denominator. *)
Definition show_exact (x : @float exact_float) : string :=
  let q : Q := x in
  if (Zpos (Qden q) =? 1)%Z then str_of_int (Qnum q) ++ ".0"
  else str_of_int (Qnum q) ++ "/" ++ str_of_int (Zpos (Qden q)).

(** [sample_sheet] with a formula in C1, and the same cells with other
    names, formulas and cached values. *)
Definition formula_sheet : sheet :=
  sheet_of [("A1", literal "1"); ("A2", literal "2");
            ("C1", {| value := Some PNone; formula := Some (PStr "=SUM(A1:A2)");
                      cachedValue := None |})].

Definition recached_sheet : sheet :=
  {| id := "other"; name := "Copy";
     cells := [("A1", {| value := Some (PStr "1"); formula := None;
                         cachedValue := Some (Text "old") |});
               ("A2", literal "2");
               ("B1", {| value := Some (PStr "x"); formula := Some (PStr "=B1");
                         cachedValue := None |});
               ("B2", literal "")] |}.

(** A session with a cell selected and a formula typed in the formula bar. *)
Definition typing_session : session :=
  {| spreadsheet_data := spreadsheet_data initial_session;
     current_file := None;
     is_modified := false;
     formula_value := PStr "=SUM(A1:A2)";
     active_cell := Some "C1" |}.

(* ================================================================== *)
(** * The definitions on concrete inputs                               *)
(* ================================================================== *)

Example index_to_column_AAA : index_to_column 702 = "AAA".
Proof. reflexivity. Qed.

Example indices_to_cell_ref_B3 : indices_to_cell_ref 2 1 = "B3".
Proof. reflexivity. Qed.

Example cell_ref_to_indices_AB120 :
  cell_ref_to_indices "AB120" = Some {| rowIndex := 119; colIndex := 27 |}.
Proof. reflexivity. Qed.

Example cell_ref_to_indices_lower : cell_ref_to_indices "a1" = None.
Proof. reflexivity. Qed.

Example sum_single :
  parse_formula "=SUM(A1:A1)" (sheet_of [("A1", literal "5")])
  = Ok (Number (PFloat (5 # 1)%Q)).
Proof. reflexivity. Qed.

Example sum_skips_text_and_empty :
  parse_formula "=SUM(A1:B2)"
    (sheet_of [("A1", literal "1"); ("A2", literal "2");
               ("B1", literal "x"); ("B2", literal "")])
  = Ok (Number (PFloat (3 # 1)%Q)).
Proof. reflexivity. Qed.

Example average_of_present :
  parse_formula "=AVERAGE(A1:A3)"
    (sheet_of [("A1", literal "2"); ("A2", literal "4")])
  = Ok (Number (PFloat (3 # 1)%Q)).
Proof. reflexivity. Qed.

Example average_of_nothing :
  parse_formula "=AVERAGE(A1:A3)"
    (sheet_of [("A1", literal "a"); ("A2", literal "b"); ("A3", literal "c")])
  = Ok (Number (PInt 0)).
Proof. reflexivity. Qed.

Example sum_list :
  parse_formula "=SUM(A1, B1,C1)"
    (sheet_of [("A1", literal "1"); ("B1", literal "2"); ("C1", literal "4")])
  = Ok (Number (PFloat (7 # 1)%Q)).
Proof. reflexivity. Qed.

Example average_list_is_text :
  parse_formula "=AVERAGE(A1,B1,C1)" (sheet_of []) = Ok (Text "AVERAGE(A1,B1,C1)").
Proof. reflexivity. Qed.

Example sum_two_colons_raises :
  parse_formula "=SUM(A1:B2:C3)" (sheet_of []) = Raise ValueError.
Proof. reflexivity. Qed.

(* ================================================================== *)
(** * Facts about the string primitives                                *)
(* ================================================================== *)

Lemma append_assoc (a b c : string) : (a ++ b) ++ c = a ++ (b ++ c).
Proof. induction a as [|x a IH]; simpl; [reflexivity | now rewrite IH]. Qed.

Lemma append_nil_r (a : string) : a ++ "" = a.
Proof. induction a as [|x a IH]; simpl; [reflexivity | now rewrite IH]. Qed.

Lemma list_ascii_of_string_app (a b : string) :
  list_ascii_of_string (a ++ b)
  = (list_ascii_of_string a ++ list_ascii_of_string b)%list.
Proof. induction a as [|x a IH]; simpl; [reflexivity | now rewrite IH]. Qed.

Lemma ord_chr (n : Z) : 0 <= n < 256 -> ord (chr n) = n.
Proof.
  intros H. unfold ord, chr.
  rewrite N_ascii_embedding by lia. lia.
Qed.

Lemma forallb_str_app (p : ascii -> bool) (a b : string) :
  forallb_str p (a ++ b) = forallb_str p a && forallb_str p b.
Proof.
  induction a as [|x a IH]; simpl; [reflexivity|].
  now rewrite IH, andb_assoc.
Qed.

Lemma is_empty_app (a b : string) : is_empty a = false -> is_empty (a ++ b) = false.
Proof. destruct a; simpl; congruence. Qed.

Lemma is_empty_true (a : string) : is_empty a = true -> a = "".
Proof. destruct a; simpl; congruence. Qed.

Lemma digit_not_upper (c : ascii) : is_digit c = true -> is_upper c = false.
Proof. unfold is_digit, is_upper. lia. Qed.

(** [span] cuts the string in two, and its first part satisfies [p]. *)
Lemma span_app (p : ascii -> bool) (s : string) :
  fst (span p s) ++ snd (span p s) = s.
Proof.
  induction s as [|c s IH]; simpl; [reflexivity|].
  destruct (p c); [|reflexivity].
  destruct (span p s) as [a b]; simpl in *. now rewrite IH.
Qed.

Lemma span_forallb (p : ascii -> bool) (s : string) :
  forallb_str p (fst (span p s)) = true.
Proof.
  induction s as [|c s IH]; simpl; [reflexivity|].
  destruct (p c) eqn:E; [|reflexivity].
  destruct (span p s) as [a b]; simpl in *. now rewrite E.
Qed.

Lemma span_stops (p : ascii -> bool) (s : string) : stops p (snd (span p s)).
Proof.
  induction s as [|c s IH]; simpl; [exact I|].
  destruct (p c) eqn:E; [|exact E].
  destruct (span p s) as [a b]; simpl in *. exact IH.
Qed.

Lemma span_exact (p : ascii -> bool) (l r : string) :
  forallb_str p l = true -> stops p r -> span p (l ++ r) = (l, r).
Proof.
  induction l as [|c l IH]; simpl; intros Hl Hr.
  - destruct r as [|d r]; simpl in *; [reflexivity | now rewrite Hr].
  - apply andb_true_iff in Hl as [Hc Hl]. rewrite Hc, (IH Hl Hr). reflexivity.
Qed.

(** The run of [p] in front of [l ++ r] contains [l]. *)
Lemma span_prefix (p : ascii -> bool) (l r : string) :
  forallb_str p l = true ->
  exists m, span p (l ++ r) = (l ++ m, snd (span p r)).
Proof.
  induction l as [|c l IH]; simpl; intros Hl.
  - exists (fst (span p r)). now destruct (span p r).
  - apply andb_true_iff in Hl as [Hc Hl]. rewrite Hc.
    destruct (IH Hl) as [m Hm]. rewrite Hm. now exists m.
Qed.

(* ================================================================== *)
(** * Address codec: round trips and rejection                         *)
(* ================================================================== *)

Lemma column_fold_snoc (p : string) (c : ascii) (start : Z) :
  column_fold (p ++ String c "") start = column_fold p start * 26 + (ord c - 64).
Proof.
  unfold column_fold. rewrite list_ascii_of_string_app, fold_left_app. reflexivity.
Qed.

Lemma digits_fold_snoc (p : string) (c : ascii) (start : Z) :
  digits_fold (p ++ String c "") start = digits_fold p start * 10 + (ord c - 48).
Proof.
  unfold digits_fold. rewrite list_ascii_of_string_app, fold_left_app. reflexivity.
Qed.

Lemma is_upper_chr (r : Z) : 0 <= r < 26 -> is_upper (chr (65 + r)) = true.
Proof. intros H. unfold is_upper. rewrite ord_chr by lia. lia. Qed.

Lemma is_digit_chr (r : Z) : 0 <= r < 10 -> is_digit (chr (48 + r)) = true.
Proof. intros H. unfold is_digit. rewrite ord_chr by lia. lia. Qed.

(** With enough fuel the loop puts in front of [result] the letters of
    [index]: they are capitals, there is at least one, and they decode to
    [index + 1]. *)
Lemma index_to_column_loop_spec (fuel : nat) :
  forall index result,
    0 <= index < Z.of_nat fuel ->
    exists p,
      index_to_column_loop fuel index result = p ++ result
      /\ column_fold p 0 = index + 1
      /\ forallb_str is_upper p = true
      /\ is_empty p = false.
Proof.
  induction fuel as [|fuel IH]; intros index result H; [lia|].
  cbn [index_to_column_loop].
  assert (Hm := Z.mod_pos_bound index 26 ltac:(lia)).
  assert (Hd := Z.div_mod index 26 ltac:(lia)).
  assert (Hq : 0 <= index / 26) by (apply Z.div_pos; lia).
  destruct (0 <=? index) eqn:E0; [|lia].
  destruct (index / 26 - 1 <? 0) eqn:E.
  - exists (String (chr (65 + index mod 26)) "").
    repeat split.
    + unfold column_fold. cbn [fold_left list_ascii_of_string].
      rewrite ord_chr by lia. lia.
    + cbn [forallb_str]. now rewrite is_upper_chr.
  - destruct (IH (index / 26 - 1) (String (chr (65 + index mod 26)) result))
      as (p & Hp & Hv & Hu & He); [lia|].
    exists (p ++ String (chr (65 + index mod 26)) "").
    repeat split.
    + rewrite Hp, append_assoc. reflexivity.
    + rewrite column_fold_snoc, Hv, ord_chr by lia. lia.
    + rewrite forallb_str_app, Hu. cbn [forallb_str andb]. now rewrite is_upper_chr.
    + now apply is_empty_app.
Qed.

Lemma index_to_column_spec (index : Z) :
  0 <= index ->
  column_fold (index_to_column index) 0 = index + 1
  /\ forallb_str is_upper (index_to_column index) = true
  /\ is_empty (index_to_column index) = false.
Proof.
  intros H. unfold index_to_column.
  destruct (index_to_column_loop_spec (S (Z.to_nat index)) index "")
    as (p & Hp & Hv & Hu & He); [lia|].
  rewrite Hp, append_nil_r. auto.
Qed.

Lemma str_digits_spec (fuel : nat) :
  forall n,
    0 <= n < Z.of_nat fuel ->
    digits_fold (str_digits fuel n) 0 = n
    /\ forallb_str is_digit (str_digits fuel n) = true
    /\ is_empty (str_digits fuel n) = false.
Proof.
  induction fuel as [|fuel IH]; intros n H; [lia|].
  cbn [str_digits].
  assert (Hm := Z.mod_pos_bound n 10 ltac:(lia)).
  assert (Hd := Z.div_mod n 10 ltac:(lia)).
  assert (Hq : 0 <= n / 10) by (apply Z.div_pos; lia).
  destruct (n <? 10) eqn:E.
  - repeat split.
    + unfold digits_fold. cbn [fold_left list_ascii_of_string append].
      rewrite ord_chr by lia. lia.
    + cbn [forallb_str append]. now rewrite is_digit_chr.
  - destruct (IH (n / 10)) as (Hv & Hg & He); [lia|].
    repeat split.
    + rewrite digits_fold_snoc, Hv, ord_chr by lia. lia.
    + rewrite forallb_str_app, Hg. cbn [forallb_str andb]. now rewrite is_digit_chr.
    + now apply is_empty_app.
Qed.

Lemma str_of_int_spec (n : Z) :
  0 <= n ->
  int_of_digits (str_of_int n) = n
  /\ forallb_str is_digit (str_of_int n) = true
  /\ is_empty (str_of_int n) = false.
Proof.
  intros H. unfold str_of_int.
  destruct (n <? 0) eqn:E; [lia|].
  apply (str_digits_spec (S (Z.to_nat n)) n). lia.
Qed.

Lemma stops_digits_upper (d : string) :
  forallb_str is_digit d = true -> stops is_upper d.
Proof.
  destruct d as [|c d]; simpl; [trivial|].
  intros H. apply andb_true_iff in H as [H _]. now apply digit_not_upper.
Qed.

(** A string made of capitals then digits is matched whole. *)
Lemma re_match_ref_exact (letters digits : string) :
  forallb_str is_upper letters = true -> is_empty letters = false ->
  forallb_str is_digit digits = true -> is_empty digits = false ->
  re_match_ref (letters ++ digits) = Some (letters, digits).
Proof.
  intros Hu He Hd Hn. unfold re_match_ref.
  rewrite (span_exact is_upper letters digits Hu (stops_digits_upper _ Hd)).
  rewrite He.
  rewrite <- (append_nil_r digits) at 1.
  rewrite (span_exact is_digit digits "" Hd I), Hn. reflexivity.
Qed.

Lemma column_to_index_index_to_column (c : Z) :
  0 <= c -> column_to_index (index_to_column c) = c.
Proof.
  intros H. destruct (index_to_column_spec c H) as (Hv & _).
  unfold column_to_index. fold (column_fold (index_to_column c) 0). lia.
Qed.

Lemma cell_ref_to_indices_indices_to_cell_ref (row col : Z) :
  0 <= row -> 0 <= col ->
  cell_ref_to_indices (indices_to_cell_ref row col)
  = Some {| rowIndex := row; colIndex := col |}.
Proof.
  intros Hr Hc.
  destruct (index_to_column_spec col Hc) as (Hv & Hu & He).
  destruct (str_of_int_spec (row + 1)) as (Hi & Hd & Hn); [lia|].
  unfold cell_ref_to_indices, indices_to_cell_ref.
  rewrite (re_match_ref_exact _ _ Hu He Hd Hn), Hi.
  rewrite (column_to_index_index_to_column col Hc).
  f_equal. f_equal. lia.
Qed.

(** C2.  Encoding a column index and decoding it gives the index back, the
    spot values 0, 25, 26 and 701 encode to A, Z, AA and ZZ, and a reference
    built from a pair of non-negative indices parses back to that pair. *)
Theorem codec_round_trip (c row col : Z) :
  0 <= c -> 0 <= row -> 0 <= col ->
  column_to_index (index_to_column c) = c
  /\ index_to_column 0 = "A"
  /\ index_to_column 25 = "Z"
  /\ index_to_column 26 = "AA"
  /\ index_to_column 701 = "ZZ"
  /\ cell_ref_to_indices (indices_to_cell_ref row col)
     = Some {| rowIndex := row; colIndex := col |}.
Proof.
  intros Hc Hrow Hcol.
  split; [now apply column_to_index_index_to_column|].
  repeat (split; [reflexivity|]).
  now apply cell_ref_to_indices_indices_to_cell_ref.
Qed.

Lemma codec_round_trip_witness :
  column_to_index (index_to_column 18277) = 18277
  /\ index_to_column 0 = "A"
  /\ index_to_column 25 = "Z"
  /\ index_to_column 26 = "AA"
  /\ index_to_column 701 = "ZZ"
  /\ cell_ref_to_indices (indices_to_cell_ref 119 27)
     = Some {| rowIndex := 119; colIndex := 27 |}.
Proof. apply (codec_round_trip 18277 119 27); lia. Defined.

Lemma re_match_ref_some (s letters digits : string) :
  re_match_ref s = Some (letters, digits) ->
  exists rest,
    s = letters ++ digits ++ rest
    /\ is_empty letters = false /\ forallb_str is_upper letters = true
    /\ is_empty digits = false /\ forallb_str is_digit digits = true.
Proof.
  unfold re_match_ref. intros H.
  assert (Ha := span_app is_upper s).
  assert (Hu := span_forallb is_upper s).
  destruct (span is_upper s) as [l r]; simpl in Ha, Hu.
  destruct (is_empty l) eqn:El; [discriminate|].
  assert (Hb := span_app is_digit r).
  assert (Hd := span_forallb is_digit r).
  destruct (span is_digit r) as [d r']; simpl in Hb, Hd.
  destruct (is_empty d) eqn:Ed; [discriminate|].
  injection H as <- <-. exists r'. rewrite Hb. auto.
Qed.

Lemma re_match_ref_prefix (s : string) :
  has_reference_prefix s -> exists m, re_match_ref s = Some m.
Proof.
  intros (l & d & rest & -> & El & Hl & Ed & Hd).
  unfold re_match_ref.
  assert (Hs : stops is_upper (d ++ rest)).
  { destruct d as [|c d]; [discriminate|]. simpl in *.
    apply andb_true_iff in Hd as [Hc _]. now apply digit_not_upper. }
  rewrite (span_exact is_upper l (d ++ rest) Hl Hs), El.
  destruct (span_prefix is_digit d rest Hd) as [m ->].
  rewrite (is_empty_app d m Ed). eauto.
Qed.

Lemma cell_ref_to_indices_none_iff (s : string) :
  cell_ref_to_indices s = None <-> ~ has_reference_prefix s.
Proof.
  unfold cell_ref_to_indices. split.
  - intros H Hp. destruct (re_match_ref_prefix s Hp) as [[l d] E].
    rewrite E in H. discriminate.
  - intros H. destruct (re_match_ref s) as [[l d]|] eqn:E; [|reflexivity].
    exfalso. apply H. destruct (re_match_ref_some s l d E) as [rest Hr].
    exists l, d, rest. exact Hr.
Qed.

(** C3, as the code has it.  [cell_ref_to_indices] gives no result exactly
    on the strings that do not start with one or more capitals followed by
    one or more digits: so on the empty string and on every string whose
    first character is not a capital (a lowercase letter, a blank, anything
    put before the reference).  What follows the digits is not looked at. *)
Theorem cell_ref_to_indices_rejects (s : string) :
  (cell_ref_to_indices s = None <-> ~ has_reference_prefix s)
  /\ cell_ref_to_indices "" = None
  /\ (forall c rest, is_upper c = false ->
        cell_ref_to_indices (String c rest) = None)
  /\ (forall letters rest, forallb_str is_upper letters = true ->
        stops is_digit rest -> stops is_upper rest ->
        cell_ref_to_indices (letters ++ rest) = None).
Proof.
  split; [apply cell_ref_to_indices_none_iff|].
  split; [reflexivity|].
  split.
  - intros c rest Hc. unfold cell_ref_to_indices, re_match_ref.
    cbn [span]. rewrite Hc. reflexivity.
  - intros letters rest Hl Hd Hu. unfold cell_ref_to_indices, re_match_ref.
    rewrite (span_exact is_upper letters rest Hl Hu).
    destruct (is_empty letters); [reflexivity|].
    change rest with ("" ++ rest) at 1.
    rewrite (span_exact is_digit "" rest eq_refl Hd). reflexivity.
Qed.

(** C3 as stated fails: ["A1x"] is not a reference, and it is read as A1. *)
Lemma cell_ref_to_indices_accepts_trailing :
  ~ is_reference "A1x"
  /\ cell_ref_to_indices "A1x" = Some {| rowIndex := 0; colIndex := 0 |}.
Proof.
  split; [|reflexivity].
  intros (l & d & H & El & Hl & Ed & Hd).
  destruct l as [|a l]; [discriminate El|].
  simpl in H. injection H as <- H.
  destruct l as [|b l]; simpl in H.
  - subst d. vm_compute in Hd. discriminate.
  - injection H as <- H. vm_compute in Hl. discriminate.
Qed.

(* ================================================================== *)
(** * Facts about slicing, stripping and splitting                     *)
(* ================================================================== *)

Lemma rstrip_snoc (x : string) (c : ascii) :
  isspace c = false -> rstrip (x ++ String c "") = x ++ String c "".
Proof.
  intros Hc. induction x as [|a x IH].
  - simpl. now rewrite Hc.
  - cbn [append rstrip]. rewrite IH. destruct x; reflexivity.
Qed.

Lemma endswith_snoc (x : string) (c : ascii) :
  endswith (String c "") (x ++ String c "") = true.
Proof.
  induction x as [|a x IH].
  - cbn [append endswith]. now rewrite String.eqb_refl.
  - cbn [append endswith]. rewrite IH. apply orb_true_r.
Qed.

Lemma drop_last_snoc (x : string) (c : ascii) : drop_last (x ++ String c "") = x.
Proof.
  induction x as [|a x IH]; [reflexivity|].
  cbn [append drop_last]. rewrite IH. destruct x; reflexivity.
Qed.

Lemma contains_app (c : ascii) (a b : string) :
  contains c (a ++ b) = contains c a || contains c b.
Proof.
  induction a as [|x a IH]; simpl; [reflexivity|].
  now rewrite IH, orb_assoc.
Qed.

Lemma split_nonempty (sep : ascii) (s : string) : split sep s <> [].
Proof.
  induction s as [|c s IH]; simpl; [discriminate|].
  destruct (Ascii.eqb c sep); [discriminate|].
  destruct (split sep s); discriminate.
Qed.

Lemma split_none (sep : ascii) (a : string) :
  contains sep a = false -> split sep a = [a].
Proof.
  induction a as [|c a IH]; simpl; intros H; [reflexivity|].
  apply orb_false_iff in H as [Hc Ha]. rewrite Hc, (IH Ha). reflexivity.
Qed.

Lemma split_app (sep : ascii) (a b : string) :
  contains sep a = false ->
  split sep (a ++ String sep b) = a :: split sep b.
Proof.
  induction a as [|c a IH]; simpl; intros H.
  - now rewrite Ascii.eqb_refl.
  - apply orb_false_iff in H as [Hc Ha]. rewrite Hc, (IH Ha). reflexivity.
Qed.

Lemma split_join (sep : ascii) (pieces : list string) :
  pieces <> [] ->
  Forall (fun p => contains sep p = false) pieces ->
  split sep (join sep pieces) = pieces.
Proof.
  induction pieces as [|p rest IH]; intros Hne Hall; [congruence|].
  inversion Hall as [|? ? Hp Hrest]; subst.
  destruct rest as [|q rest].
  - simpl. now apply split_none.
  - cbn [join]. rewrite (split_app sep p _ Hp).
    f_equal. apply IH; [discriminate | assumption].
Qed.

Lemma contains_join (c sep : ascii) (pieces : list string) :
  Ascii.eqb sep c = false ->
  Forall (fun p => contains c p = false) pieces ->
  contains c (join sep pieces) = false.
Proof.
  intros Hs. induction pieces as [|p rest IH]; intros Hall; [reflexivity|].
  inversion Hall as [|? ? Hp Hrest]; subst.
  destruct rest as [|q rest]; [exact Hp|].
  cbn [join]. rewrite contains_app, Hp. cbn [contains orb].
  rewrite Hs. now apply IH.
Qed.

Lemma strip_sum (body : string) :
  strip ("SUM(" ++ body ++ ")") = "SUM(" ++ body ++ ")".
Proof.
  unfold strip. cbn [append lstrip].
  replace (isspace "S") with false by reflexivity.
  change (String "S" (String "U" (String "M" (String "(" (body ++ ")")))))
    with ("SUM(" ++ (body ++ ")")).
  rewrite <- append_assoc. now apply rstrip_snoc.
Qed.

Lemma strip_average (body : string) :
  strip ("AVERAGE(" ++ body ++ ")") = "AVERAGE(" ++ body ++ ")".
Proof.
  unfold strip. cbn [append lstrip].
  replace (isspace "A") with false by reflexivity.
  change (String "A" (String "V" (String "E" (String "R" (String "A"
            (String "G" (String "E" (String "(" (body ++ ")")))))))))
    with ("AVERAGE(" ++ (body ++ ")")).
  rewrite <- append_assoc. now apply rstrip_snoc.
Qed.

(* ================================================================== *)
(** * Formula evaluator: what the supported shapes compute             *)
(* ================================================================== *)

Section Evaluator.

Context {fl : PyFloat}.

Lemma fold_left_map {A B C} (f : A -> B -> A) (g : C -> B) (l : list C) (a : A) :
  fold_left (fun acc x => f acc (g x)) l a = fold_left f (map g l) a.
Proof. revert a. induction l as [|x l IH]; intros a; simpl; [reflexivity | apply IH]. Qed.

Lemma for_rectangle_fold {A} (body : A -> string -> A)
    (min_row max_row min_col max_col : Z) (init : A) :
  for_rectangle body min_row max_row min_col max_col init
  = fold_left body (rectangle_refs min_row max_row min_col max_col) init.
Proof.
  unfold for_rectangle, rectangle_refs.
  generalize (range min_row (max_row + 1)) as rows. intros rows. revert init.
  induction rows as [|row rows IH]; intros init; [reflexivity|].
  cbn [fold_left flat_map]. rewrite fold_left_app, IH.
  now rewrite (fold_left_map body (indices_to_cell_ref row)).
Qed.

Lemma sum_step_fold (ws : sheet) (refs : list string) (acc : pynum) :
  fold_left (sum_step ws) refs acc
  = fold_left add_float (numeric_contents ws refs) acc.
Proof.
  revert acc. induction refs as [|r refs IH]; intros acc; [reflexivity|].
  cbn [fold_left numeric_contents flat_map]. fold (numeric_contents ws refs).
  rewrite fold_left_app, IH. unfold sum_step.
  destruct (numeric_value ws r); reflexivity.
Qed.

Lemma average_step_fold (ws : sheet) (refs : list string) (vals : list float) :
  fold_left (average_step ws) refs vals = (vals ++ numeric_contents ws refs)%list.
Proof.
  revert vals. induction refs as [|r refs IH]; intros vals.
  - simpl. now rewrite app_nil_r.
  - cbn [fold_left numeric_contents flat_map]. fold (numeric_contents ws refs).
    rewrite IH. unfold average_step.
    destruct (numeric_value ws r); [now rewrite <- app_assoc | reflexivity].
Qed.

Lemma numeric_value_none_iff (ws : sheet) (r : string) :
  numeric_value ws r = None <-> skipped ws r.
Proof.
  unfold numeric_value, skipped, get. split.
  - destruct (lookup r (cells ws)) as [c|]; [|now left].
    intros H. right.
    destruct (value c) as [[|s]|] eqn:Ev.
    + left. exists c. rewrite Ev. auto.
    + destruct (truthy (PStr s)) eqn:Et.
      * right. exists c, s. auto.
      * left. exists c. rewrite Ev. auto.
    + left. exists c. rewrite Ev. auto.
  - intros [H | [(c & H & Ht) | (c & s & H & Hv & Hf)]]; rewrite H; [reflexivity| |].
    + destruct (value c) as [[|s]|]; try reflexivity. now rewrite Ht.
    + rewrite Hv. now destruct (truthy (PStr s)).
Qed.

Lemma numeric_contents_skip (ws : sheet) (a b : list string) (r : string) :
  skipped ws r ->
  numeric_contents ws (a ++ r :: b) = numeric_contents ws (a ++ b).
Proof.
  intros H. apply numeric_value_none_iff in H.
  unfold numeric_contents. rewrite !flat_map_app. cbn [flat_map].
  now rewrite H.
Qed.

(** What [parse_formula] does on [=SUM(body)], by the shape of [body]. *)
Lemma parse_formula_sum (body : string) (ws : sheet) :
  parse_formula (call "SUM" body) ws =
  if contains ":" body then
    match split ":" body with
    | [start_ref; end_ref] =>
        match cell_ref_to_indices start_ref, cell_ref_to_indices end_ref with
        | Some c1, Some c2 => Ok (Number (total (numeric_contents ws (visited c1 c2))))
        | _, _ => Ok (Text ("SUM(" ++ body ++ ")"))
        end
    | _ => Raise ValueError
    end
  else Ok (Number (total (numeric_contents ws (map strip (split "," body))))).
Proof.
  unfold parse_formula, call.
  change (startswith "=" ("=" ++ "SUM" ++ "(" ++ body ++ ")")) with true.
  change (drop 1 ("=" ++ "SUM" ++ "(" ++ body ++ ")")) with ("SUM(" ++ body ++ ")").
  cbv iota. rewrite strip_sum. unfold sum_block.
  change (startswith "SUM(" ("SUM(" ++ body ++ ")")) with true.
  change (slice_to_last 4 ("SUM(" ++ body ++ ")")) with (drop_last (body ++ ")")).
  rewrite drop_last_snoc.
  replace (endswith ")" ("SUM(" ++ body ++ ")")) with true
    by (symmetry; rewrite <- append_assoc; apply endswith_snoc).
  cbn [andb].
  destruct (contains ":" body).
  - destruct (split ":" body) as [|a [|b [|c l]]]; try reflexivity.
    destruct (cell_ref_to_indices a) as [c1|], (cell_ref_to_indices b) as [c2|];
      try reflexivity.
    unfold total, visited. now rewrite for_rectangle_fold, sum_step_fold.
  - unfold total. now rewrite sum_step_fold.
Qed.

(** What [parse_formula] does on [=AVERAGE(body)]. *)
Lemma parse_formula_average (body : string) (ws : sheet) :
  parse_formula (call "AVERAGE" body) ws =
  if contains ":" body then
    match split ":" body with
    | [start_ref; end_ref] =>
        match cell_ref_to_indices start_ref, cell_ref_to_indices end_ref with
        | Some c1, Some c2 => Ok (Number (mean (numeric_contents ws (visited c1 c2))))
        | _, _ => Ok (Text ("AVERAGE(" ++ body ++ ")"))
        end
    | _ => Raise ValueError
    end
  else Ok (Text ("AVERAGE(" ++ body ++ ")")).
Proof.
  unfold parse_formula, call.
  change (startswith "=" ("=" ++ "AVERAGE" ++ "(" ++ body ++ ")")) with true.
  change (drop 1 ("=" ++ "AVERAGE" ++ "(" ++ body ++ ")"))
    with ("AVERAGE(" ++ body ++ ")").
  cbv iota. rewrite strip_average.
  change (sum_block ("AVERAGE(" ++ body ++ ")") ws) with (@None (result EvaluationResult)).
  unfold average_block.
  change (startswith "AVERAGE(" ("AVERAGE(" ++ body ++ ")")) with true.
  change (slice_to_last 8 ("AVERAGE(" ++ body ++ ")")) with (drop_last (body ++ ")")).
  rewrite drop_last_snoc.
  replace (endswith ")" ("AVERAGE(" ++ body ++ ")")) with true
    by (symmetry; rewrite <- append_assoc; apply endswith_snoc).
  cbn [andb].
  destruct (contains ":" body); [|reflexivity].
  destruct (split ":" body) as [|a [|b [|c l]]]; try reflexivity.
  destruct (cell_ref_to_indices a) as [c1|], (cell_ref_to_indices b) as [c2|];
    try reflexivity.
  unfold visited. rewrite for_rectangle_fold, average_step_fold. cbn [app].
  unfold mean. destruct (numeric_contents ws _); reflexivity.
Qed.

Lemma range_body (r1 r2 : string) :
  contains ":" r1 = false -> contains ":" r2 = false ->
  contains ":" (r1 ++ ":" ++ r2) = true
  /\ split ":" (r1 ++ ":" ++ r2) = [r1; r2].
Proof.
  intros H1 H2. split.
  - rewrite contains_app. cbn [append contains].
    rewrite Ascii.eqb_refl. cbn [orb]. apply orb_true_r.
  - cbn [append]. rewrite (split_app ":" r1 r2 H1), (split_none ":" r2 H2). reflexivity.
Qed.

Lemma parse_formula_sum_range (ws : sheet) (r1 r2 : string) (c1 c2 : indices) :
  contains ":" r1 = false -> contains ":" r2 = false ->
  cell_ref_to_indices r1 = Some c1 -> cell_ref_to_indices r2 = Some c2 ->
  parse_formula (call "SUM" (r1 ++ ":" ++ r2)) ws
  = Ok (Number (total (numeric_contents ws (visited c1 c2)))).
Proof.
  intros H1 H2 E1 E2. rewrite parse_formula_sum.
  destruct (range_body r1 r2 H1 H2) as [-> ->]. now rewrite E1, E2.
Qed.

Lemma parse_formula_average_range (ws : sheet) (r1 r2 : string) (c1 c2 : indices) :
  contains ":" r1 = false -> contains ":" r2 = false ->
  cell_ref_to_indices r1 = Some c1 -> cell_ref_to_indices r2 = Some c2 ->
  parse_formula (call "AVERAGE" (r1 ++ ":" ++ r2)) ws
  = Ok (Number (mean (numeric_contents ws (visited c1 c2)))).
Proof.
  intros H1 H2 E1 E2. rewrite parse_formula_average.
  destruct (range_body r1 r2 H1 H2) as [-> ->]. now rewrite E1, E2.
Qed.

Lemma parse_formula_sum_list (ws : sheet) (refs : list string) :
  refs <> [] ->
  Forall (fun r => contains "," r = false /\ contains ":" r = false) refs ->
  parse_formula (call "SUM" (join "," refs)) ws
  = Ok (Number (total (numeric_contents ws (map strip refs)))).
Proof.
  intros Hne Hall. rewrite parse_formula_sum.
  rewrite contains_join;
    [| reflexivity | eapply Forall_impl; [|exact Hall]; now intros ? [_ ?]].
  rewrite split_join; [reflexivity | exact Hne |].
  eapply Forall_impl; [|exact Hall]. now intros ? [? _].
Qed.

Lemma visited_comm (c1 c2 : indices) : visited c1 c2 = visited c2 c1.
Proof.
  unfold visited.
  now rewrite (Z.min_comm (rowIndex c1)), (Z.max_comm (rowIndex c1)),
              (Z.min_comm (colIndex c1)), (Z.max_comm (colIndex c1)).
Qed.

Lemma split_length (sep : ascii) (s : string) :
  List.length (split sep s) = S (count sep s).
Proof.
  induction s as [|c s IH]; [reflexivity|]. simpl.
  destruct (Ascii.eqb c sep); simpl; [now rewrite IH|].
  destruct (split sep s); simpl in *; congruence.
Qed.

Lemma split_singleton (sep : ascii) (s a : string) :
  split sep s = [a] -> contains sep s = false.
Proof.
  revert a. induction s as [|x s IH]; intros a; [reflexivity|]. simpl.
  destruct (Ascii.eqb x sep).
  - intros H. exfalso. injection H as _ H. now apply (split_nonempty sep s).
  - destruct (split sep s) as [|h [|h' t]] eqn:E.
    + exfalso. now apply (split_nonempty sep s).
    + intros _. apply (IH h eq_refl).
    + discriminate.
Qed.

Lemma count_drop (c : ascii) (n : nat) (s : string) :
  (count c (drop n s) <= count c s)%nat.
Proof.
  revert s. induction n as [|n IH]; intros [|d s]; simpl; try lia.
  specialize (IH s). lia.
Qed.

Lemma count_drop_last (c : ascii) (s : string) :
  (count c (drop_last s) <= count c s)%nat.
Proof.
  induction s as [|d s IH]; [simpl; lia|].
  cbn [drop_last]. destruct s as [|d' s]; [simpl; lia|].
  cbn [count] in *. lia.
Qed.

Lemma count_lstrip (c : ascii) (s : string) :
  (count c (lstrip s) <= count c s)%nat.
Proof.
  induction s as [|d s IH]; [simpl; lia|].
  cbn [lstrip]. destruct (isspace d); cbn [count] in *; lia.
Qed.

Lemma count_rstrip (c : ascii) (s : string) :
  (count c (rstrip s) <= count c s)%nat.
Proof.
  induction s as [|d s IH]; [simpl; lia|].
  cbn [rstrip]. destruct (rstrip s) as [|d' r].
  - destruct (isspace d); cbn [count] in *; lia.
  - cbn [count] in *. lia.
Qed.

Lemma count_strip (c : ascii) (s : string) : (count c (strip s) <= count c s)%nat.
Proof.
  unfold strip. etransitivity; [apply count_rstrip | apply count_lstrip].
Qed.

(** The only exception [parse_formula] raises is the [ValueError] of the
    unpacking, and it takes two colons in the formula: a formula with at
    most one colon always evaluates to a number or a text. *)
Lemma parse_formula_raise_inv (formula : string) (ws : sheet) (e : exn) :
  parse_formula formula ws = Raise e ->
  e = ValueError /\ (2 <= count ":" formula)%nat.
Proof.
  unfold parse_formula.
  set (formula_text := if startswith "=" formula then _ else _).
  assert (Hc : (count ":" formula_text <= count ":" formula)%nat).
  { subst formula_text. destruct (startswith "=" formula).
    - etransitivity; [apply count_strip | apply count_drop].
    - apply count_strip. }
  assert (Hk : forall n range_text,
             range_text = slice_to_last n formula_text ->
             match split ":" range_text with
             | [_; _] => True
             | _ => (2 <= count ":" formula)%nat \/ contains ":" range_text = false
             end).
  { intros n range_text ->.
    assert (Hl := split_length ":" (slice_to_last n formula_text)).
    assert (Hd : (count ":" (slice_to_last n formula_text) <= count ":" formula_text)%nat).
    { unfold slice_to_last. etransitivity; [apply count_drop_last | apply count_drop]. }
    destruct (split ":" (slice_to_last n formula_text)) as [|a [|b [|c l]]] eqn:Es;
      simpl in Hl; try exact I; try (left; lia).
    right. now apply (split_singleton ":" _ a). }
  unfold sum_block, average_block.
  assert (H4 := Hk 4%nat _ eq_refl). assert (H8 := Hk 8%nat _ eq_refl).
  destruct (startswith "SUM(" formula_text && endswith ")" formula_text).
  - destruct (contains ":" (slice_to_last 4 formula_text)) eqn:Ec; [|discriminate].
    destruct (split ":" (slice_to_last 4 formula_text)) as [|a [|b [|c l]]];
      try (destruct H4 as [H4|H4]; [intros [= <-]; auto | discriminate]).
    destruct (cell_ref_to_indices a), (cell_ref_to_indices b); try discriminate;
      destruct (startswith "AVERAGE(" formula_text && endswith ")" formula_text);
      try discriminate;
      destruct (contains ":" (slice_to_last 8 formula_text)); try discriminate;
      destruct (split ":" (slice_to_last 8 formula_text)) as [|a' [|b' [|c' l']]];
      try (destruct H8 as [H8|H8]; [intros [= <-]; auto | discriminate]);
      destruct (cell_ref_to_indices a'), (cell_ref_to_indices b'); try discriminate;
      destruct (for_rectangle _ _ _ _ _ _); discriminate.
  - destruct (startswith "AVERAGE(" formula_text && endswith ")" formula_text);
      try discriminate.
    destruct (contains ":" (slice_to_last 8 formula_text)) eqn:Ec; try discriminate.
    destruct (split ":" (slice_to_last 8 formula_text)) as [|a' [|b' [|c' l']]];
      try (destruct H8 as [H8|H8]; [intros [= <-]; auto | discriminate]).
    destruct (cell_ref_to_indices a'), (cell_ref_to_indices b'); try discriminate.
    destruct (for_rectangle _ _ _ _ _ _); discriminate.
Qed.

(** C1, at the input on which it fails.  A [SUM] or [AVERAGE] whose
    argument holds two colons makes the unpacking of [split(":")] raise
    [ValueError], on every worksheet; the text fallback is not reached. *)
Theorem parse_formula_two_colons_raises (ws : sheet) :
  parse_formula "=SUM(A1:B2:C3)" ws = Raise ValueError
  /\ parse_formula "=AVERAGE(A1:B2:C3)" ws = Raise ValueError.
Proof. split; reflexivity. Qed.

(** C4.  [SUM] over a comma-separated list adds the numeric contents of the
    listed cells, each reference trimmed of blanks; [AVERAGE] over such a
    list is not evaluated and gives back the formula body as text. *)
Theorem sum_list_supported_average_list_text (ws : sheet) (refs : list string) :
  refs <> [] ->
  Forall (fun r => contains "," r = false /\ contains ":" r = false) refs ->
  parse_formula (call "SUM" (join "," refs)) ws
  = Ok (Number (total (numeric_contents ws (map strip refs))))
  /\ parse_formula (call "AVERAGE" (join "," refs)) ws
     = Ok (Text ("AVERAGE(" ++ join "," refs ++ ")"))
  /\ parse_formula "AVERAGE(A1,B1,C1)" ws = Ok (Text "AVERAGE(A1,B1,C1)").
Proof.
  intros Hne Hall. split; [now apply parse_formula_sum_list|].
  split; [|reflexivity].
  rewrite parse_formula_average.
  rewrite contains_join; [reflexivity | reflexivity |].
  eapply Forall_impl; [|exact Hall]. now intros ? [_ ?].
Qed.

(** C5.  In a range, a visited reference with no cell, with an empty value
    or with a value that is not a number is left out of the values that are
    added and counted; [SUM] is the total of the values that remain and
    [AVERAGE] their mean, and both are the integer 0 when none remains.  The
    same holds for the total of a [SUM] list. *)
Theorem aggregation_skips_non_numeric
    (ws : sheet) (r1 r2 : string) (c1 c2 : indices) :
  contains ":" r1 = false -> contains ":" r2 = false ->
  cell_ref_to_indices r1 = Some c1 -> cell_ref_to_indices r2 = Some c2 ->
  let vals := numeric_contents ws (visited c1 c2) in
  (forall r, numeric_value ws r = None <-> skipped ws r)
  /\ (forall a b r, skipped ws r ->
        numeric_contents ws (a ++ r :: b) = numeric_contents ws (a ++ b))
  /\ parse_formula (call "SUM" (r1 ++ ":" ++ r2)) ws = Ok (Number (total vals))
  /\ parse_formula (call "AVERAGE" (r1 ++ ":" ++ r2)) ws = Ok (Number (mean vals))
  /\ (vals = [] ->
        parse_formula (call "SUM" (r1 ++ ":" ++ r2)) ws = Ok (Number (PInt 0))
        /\ parse_formula (call "AVERAGE" (r1 ++ ":" ++ r2)) ws = Ok (Number (PInt 0)))
  /\ (forall refs,
        refs <> [] ->
        Forall (fun r => contains "," r = false /\ contains ":" r = false) refs ->
        Forall (skipped ws) (map strip refs) ->
        parse_formula (call "SUM" (join "," refs)) ws = Ok (Number (PInt 0))).
Proof.
  intros H1 H2 E1 E2 vals.
  assert (Hs := parse_formula_sum_range ws r1 r2 c1 c2 H1 H2 E1 E2).
  assert (Ha := parse_formula_average_range ws r1 r2 c1 c2 H1 H2 E1 E2).
  fold vals in Hs, Ha.
  split; [apply numeric_value_none_iff|].
  split; [apply numeric_contents_skip|].
  split; [exact Hs|]. split; [exact Ha|]. split.
  - intros Hv. rewrite Hs, Ha, Hv. split; reflexivity.
  - intros refs Hne Hall Hskip.
    rewrite (parse_formula_sum_list ws refs Hne Hall).
    replace (numeric_contents ws (map strip refs)) with (@nil float); [reflexivity|].
    symmetry. induction Hskip as [|r l Hr _ IH]; [reflexivity|].
    apply numeric_value_none_iff in Hr.
    cbn [numeric_contents flat_map]. now rewrite Hr.
Qed.

(** C6.  The two corners of a range can be given in either order: [SUM] and
    [AVERAGE] aggregate over the rectangle between the smaller and the
    larger row and the smaller and the larger column of the two corners. *)
Theorem range_corner_order (ws : sheet) (r1 r2 : string) (c1 c2 : indices) :
  contains ":" r1 = false -> contains ":" r2 = false ->
  cell_ref_to_indices r1 = Some c1 -> cell_ref_to_indices r2 = Some c2 ->
  let rectangle :=
    rectangle_refs (Z.min (rowIndex c1) (rowIndex c2)) (Z.max (rowIndex c1) (rowIndex c2))
                   (Z.min (colIndex c1) (colIndex c2)) (Z.max (colIndex c1) (colIndex c2)) in
  parse_formula (call "SUM" (r1 ++ ":" ++ r2)) ws
  = parse_formula (call "SUM" (r2 ++ ":" ++ r1)) ws
  /\ parse_formula (call "AVERAGE" (r1 ++ ":" ++ r2)) ws
     = parse_formula (call "AVERAGE" (r2 ++ ":" ++ r1)) ws
  /\ parse_formula (call "SUM" (r1 ++ ":" ++ r2)) ws
     = Ok (Number (total (numeric_contents ws rectangle)))
  /\ parse_formula (call "AVERAGE" (r1 ++ ":" ++ r2)) ws
     = Ok (Number (mean (numeric_contents ws rectangle))).
Proof.
  intros H1 H2 E1 E2 rectangle.
  rewrite (parse_formula_sum_range ws r1 r2 c1 c2 H1 H2 E1 E2).
  rewrite (parse_formula_sum_range ws r2 r1 c2 c1 H2 H1 E2 E1).
  rewrite (parse_formula_average_range ws r1 r2 c1 c2 H1 H2 E1 E2).
  rewrite (parse_formula_average_range ws r2 r1 c2 c1 H2 H1 E2 E1).
  rewrite (visited_comm c2 c1). repeat split; reflexivity.
Qed.

End Evaluator.

(* ================================================================== *)
(** * Re-evaluation, cell store and persistence                        *)
(* ================================================================== *)

Section Store.

Context {fl : PyFloat}.

Lemma only_cache_written_refl (c : cell) : only_cache_written c c.
Proof. repeat split. Qed.

Lemma Forall2_same_key_refl (l : dict cell) : Forall2 same_key_only_cache_written l l.
Proof.
  induction l as [|kc l IH]; constructor; [|exact IH].
  split; [reflexivity | apply only_cache_written_refl].
Qed.

Lemma evaluate_cells_frame (ws_id ws_name : string) (todo : dict cell) :
  forall done,
  exists todo',
    fst (evaluate_cells ws_id ws_name done todo) = (done ++ todo')%list
    /\ Forall2 same_key_only_cache_written todo todo'.
Proof.
  induction todo as [|[cell_ref cell_data] todo IH]; intros done.
  - exists []. split; [simpl; now rewrite app_nil_r | constructor].
  - cbn [evaluate_cells].
    destruct (formula_of cell_data) as [f|] eqn:Ef.
    + destruct (parse_formula f _) as [v|e].
      * destruct (IH (done ++ [(cell_ref, set_cachedValue cell_data v)])%list)
          as (todo' & Heq & Hall).
        exists ((cell_ref, set_cachedValue cell_data v) :: todo'). split.
        -- rewrite Heq, <- app_assoc. reflexivity.
        -- constructor; [|exact Hall].
           split; [reflexivity|]. repeat split. cbn [snd]. congruence.
      * exists ((cell_ref, cell_data) :: todo).
        split; [reflexivity | apply Forall2_same_key_refl].
    + destruct (IH (done ++ [(cell_ref, cell_data)])%list) as (todo' & Heq & Hall).
      exists ((cell_ref, cell_data) :: todo'). split.
      * rewrite Heq, <- app_assoc. reflexivity.
      * constructor; [|exact Hall].
        split; [reflexivity | apply only_cache_written_refl].
Qed.

Lemma Forall2_same_key_keys (l l' : dict cell) :
  Forall2 same_key_only_cache_written l l' -> map fst l' = map fst l.
Proof.
  induction 1 as [|kc kc' l l' [Hk _] _ IH]; [reflexivity|].
  simpl. now rewrite Hk, IH.
Qed.

Lemma Forall2_same_key_lookup (l l' : dict cell) (r : string) :
  Forall2 same_key_only_cache_written l l' ->
  match lookup r l, lookup r l' with
  | Some c, Some c' => only_cache_written c c'
  | None, None => True
  | _, _ => False
  end.
Proof.
  induction 1 as [|[k c] [k' c'] l l' [Hk Hc] _ IH]; [exact I|].
  simpl in Hk, Hc. subst k'. cbn [lookup].
  destruct (String.eqb k r); [exact Hc | exact IH].
Qed.

Lemma evaluate_worksheet_formulas_cells (ws : sheet) :
  id (fst (evaluate_worksheet_formulas ws)) = id ws
  /\ name (fst (evaluate_worksheet_formulas ws)) = name ws
  /\ Forall2 same_key_only_cache_written
       (cells ws) (cells (fst (evaluate_worksheet_formulas ws))).
Proof.
  unfold evaluate_worksheet_formulas.
  destruct (evaluate_cells_frame (id ws) (name ws) (cells ws) []) as (todo' & Heq & Hall).
  destruct (evaluate_cells (id ws) (name ws) [] (cells ws)) as [cells' r].
  simpl in *. subst cells'. auto.
Qed.

(** C10.  Re-evaluating a worksheet, whether the pass completes or stops on
    an exception, keeps the sheet's id, name and cell keys, keeps every
    cell's [value] and [formula], and leaves a cell without a formula as it
    was: only [cachedValue] of formula cells is written. *)
Theorem evaluate_worksheet_formulas_frame (ws : sheet) :
  let ws' := fst (evaluate_worksheet_formulas ws) in
  id ws' = id ws
  /\ name ws' = name ws
  /\ map fst (cells ws') = map fst (cells ws)
  /\ Forall2 same_key_only_cache_written (cells ws) (cells ws')
  /\ (forall r,
        match lookup r (cells ws), lookup r (cells ws') with
        | Some c, Some c' =>
            value c' = value c /\ formula c' = formula c
            /\ (formula_of c = None -> c' = c)
        | None, None => True
        | _, _ => False
        end).
Proof.
  intros ws'. subst ws'.
  destruct (evaluate_worksheet_formulas_cells ws) as (Hid & Hname & Hall).
  repeat split; try assumption.
  - now apply Forall2_same_key_keys.
  - intros r. apply (Forall2_same_key_lookup _ _ r Hall).
Qed.

Lemma find_sheet_none_iff (sheet_id : string) (l : list sheet) :
  find_sheet sheet_id l = None <-> ~ In sheet_id (map id l).
Proof.
  induction l as [|s l IH]; simpl; [tauto|].
  destruct (String.eqb_spec (id s) sheet_id) as [E|E].
  - split; [discriminate | intros H; exfalso; apply H; now left].
  - rewrite IH. tauto.
Qed.

Lemma find_sheet_some_id (sheet_id : string) (l : list sheet) (ws : sheet) :
  find_sheet sheet_id l = Some ws -> id ws = sheet_id.
Proof.
  induction l as [|s l IH]; simpl; [discriminate|].
  destruct (String.eqb_spec (id s) sheet_id) as [E|E]; [|exact IH].
  now intros [= <-].
Qed.

Lemma replace_sheet_ids (sheet_id : string) (ws' : sheet) (l : list sheet) :
  id ws' = sheet_id -> map id (replace_sheet sheet_id ws' l) = map id l.
Proof.
  intros H. induction l as [|s l IH]; [reflexivity|]. simpl.
  destruct (String.eqb_spec (id s) sheet_id) as [E|E]; simpl; congruence.
Qed.

Lemma rename_first_ids (sheet_id new_name : string) (l : list sheet) :
  map id (fst (rename_first sheet_id new_name l)) = map id l.
Proof.
  induction l as [|s l IH]; [reflexivity|]. simpl.
  destruct (String.eqb (id s) sheet_id); [reflexivity|].
  destruct (rename_first sheet_id new_name l) as [l' found]. simpl in *. congruence.
Qed.

Lemma evaluate_sheets_ids (l : list sheet) :
  map id (fst (evaluate_sheets l)) = map id l.
Proof.
  induction l as [|ws l IH]; [reflexivity|]. cbn [evaluate_sheets].
  destruct (evaluate_worksheet_formulas_cells ws) as (Hid & _).
  destruct (evaluate_worksheet_formulas ws) as [ws' [u|e]]; simpl in Hid.
  - destruct (evaluate_sheets l) as [l' r]. simpl in *. congruence.
  - simpl. congruence.
Qed.

Lemma update_cell_ids (sheet_id cell_ref : string) (data : cell_update) (st : session) :
  sheet_ids (fst (update_cell sheet_id cell_ref data st)) = sheet_ids st
  /\ activeSheet (spreadsheet_data (fst (update_cell sheet_id cell_ref data st)))
     = activeSheet (spreadsheet_data st).
Proof.
  unfold update_cell, sheet_ids.
  destruct (find_sheet sheet_id (sheets (spreadsheet_data st))) as [ws|] eqn:Ef;
    [|split; reflexivity].
  apply find_sheet_some_id in Ef.
  set (ws1 := {| id := id ws; name := name ws; cells := _ |}).
  assert (H : forall p : sheet * result unit, id (fst p) = sheet_id ->
            map id (sheets (spreadsheet_data (fst
              (let '(ws2, r) := p in
               (with_sheets st (activeSheet (spreadsheet_data st))
                  (replace_sheet sheet_id ws2 (sheets (spreadsheet_data st))) true, r)))))
            = map id (sheets (spreadsheet_data st))
            /\ activeSheet (spreadsheet_data (fst
              (let '(ws2, r) := p in
               (with_sheets st (activeSheet (spreadsheet_data st))
                  (replace_sheet sheet_id ws2 (sheets (spreadsheet_data st))) true, r))))
               = activeSheet (spreadsheet_data st)).
  { intros [ws2 r] Hid. simpl in *. split; [now apply replace_sheet_ids | reflexivity]. }
  apply H.
  destruct (evaluate_worksheet_formulas_cells ws1) as (Hid & _).
  destruct (d_formula data), (d_value data); try (rewrite Hid; exact Ef); exact Ef.
Qed.

Lemma remove_sheet_valid (sheet_id : string) (st st' : session) :
  active_sheet_valid st ->
  remove_sheet sheet_id st = (st', Ok tt) ->
  active_sheet_valid st'.
Proof.
  unfold remove_sheet, active_sheet_valid. intros Hv.
  destruct (List.length (sheets (spreadsheet_data st)) <=? 1)%nat.
  { now intros [= <-]. }
  destruct (String.eqb_spec (activeSheet (spreadsheet_data st)) sheet_id) as [E|E].
  - destruct (filter _ _) as [|first kept]; [discriminate|].
    intros [= <-]. simpl. now left.
  - intros [= <-]. simpl.
    apply in_map_iff in Hv as (s & Hs & Hin).
    apply in_map_iff. exists s. split; [exact Hs|].
    apply filter_In. split; [exact Hin|].
    apply negb_true_iff, String.eqb_neq. congruence.
Qed.

Lemma save_spreadsheet_data (name : pyval) (uuid now : string) (ok : bool) (st : session) :
  spreadsheet_data (fst (save_spreadsheet name uuid now ok st)) = spreadsheet_data st.
Proof.
  unfold save_spreadsheet.
  destruct (truthy name), (current_file st), ok; reflexivity.
Qed.

(** A save that reports failure changed nothing in the session. *)
Lemma save_spreadsheet_failure (name : pyval) (uuid now : string) (ok : bool)
    (st : session) :
  snd (save_spreadsheet name uuid now ok st) = false ->
  fst (save_spreadsheet name uuid now ok st) = st.
Proof.
  unfold save_spreadsheet.
  destruct (truthy name), (current_file st), ok; simpl; congruence.
Qed.

Lemma save_spreadsheet_write_failure (name : pyval) (uuid now : string) (st : session) :
  save_spreadsheet name uuid now false st = (st, false).
Proof.
  unfold save_spreadsheet.
  destruct (truthy name), (current_file st); reflexivity.
Qed.

(** A load whose file cannot be read or decoded changed nothing. *)
Lemma load_spreadsheet_read_failure (e : exn) (st : session) :
  load_spreadsheet (Raise e) st = (st, false).
Proof. reflexivity. Qed.

(** C8, as the code has it.  [update_cell] on a sheet id the document does
    not have returns normally and leaves the whole session as it was, the
    modified flag included. *)
Theorem update_cell_unknown_sheet
    (sheet_id cell_ref : string) (data : cell_update) (st : session) :
  ~ In sheet_id (sheet_ids st) ->
  update_cell sheet_id cell_ref data st = (st, Ok tt).
Proof.
  intros H. apply find_sheet_none_iff in H.
  unfold update_cell. now rewrite H.
Qed.

(** C7, as the code has it.  [set_active_sheet] stores the id it is given,
    known or not, and touches neither the sheets nor the modified flag; the
    pointer names a sheet of the document afterwards exactly when the id is
    one of its sheets.  The other operations keep a valid pointer valid:
    [new_spreadsheet], [add_sheet], [rename_sheet], [update_cell] (also when
    it raises), [remove_sheet] when it returns, [save_spreadsheet], and
    [load_spreadsheet] when the file cannot be read or holds a document
    whose pointer is valid. *)
Theorem active_sheet_pointer (st : session) (sheet_id : string) :
  active_sheet_valid st ->
  is_modified (set_active_sheet sheet_id st) = is_modified st
  /\ activeSheet (spreadsheet_data (set_active_sheet sheet_id st)) = sheet_id
  /\ sheets (spreadsheet_data (set_active_sheet sheet_id st))
     = sheets (spreadsheet_data st)
  /\ (active_sheet_valid (set_active_sheet sheet_id st) <-> In sheet_id (sheet_ids st))
  /\ active_sheet_valid (new_spreadsheet st)
  /\ active_sheet_valid (add_sheet st)
  /\ (forall i new_name, active_sheet_valid (rename_sheet i new_name st))
  /\ (forall i cell_ref data, active_sheet_valid (fst (update_cell i cell_ref data st)))
  /\ (forall i st', remove_sheet i st = (st', Ok tt) -> active_sheet_valid st')
  /\ (forall name uuid now ok,
        active_sheet_valid (fst (save_spreadsheet name uuid now ok st)))
  /\ (forall e, active_sheet_valid (fst (load_spreadsheet (Raise e) st)))
  /\ (forall file_data,
        In (activeSheet (data file_data)) (map id (sheets (data file_data))) ->
        active_sheet_valid (fst (load_spreadsheet (Ok file_data) st))).
Proof.
  intros Hv.
  split; [reflexivity|]. split; [reflexivity|]. split; [reflexivity|].
  split; [reflexivity|].
  split; [now left|].
  split.
  { unfold active_sheet_valid, add_sheet. simpl.
    rewrite map_app. apply in_or_app. right. now left. }
  split.
  { intros i new_name. unfold active_sheet_valid, rename_sheet.
    assert (Hids := rename_first_ids i new_name (sheets (spreadsheet_data st))).
    destruct (rename_first i new_name _) as [l found]. simpl in *.
    rewrite Hids. exact Hv. }
  split.
  { intros i cell_ref data. unfold active_sheet_valid.
    destruct (update_cell_ids i cell_ref data st) as [Hids Hact].
    unfold sheet_ids in Hids. rewrite Hids, Hact. exact Hv. }
  split; [intros i st'; now apply remove_sheet_valid|].
  split.
  { intros name uuid now ok. unfold active_sheet_valid.
    rewrite save_spreadsheet_data. exact Hv. }
  split; [intros e; exact Hv|].
  intros file_data Hin. unfold active_sheet_valid, load_spreadsheet.
  assert (Hids := evaluate_sheets_ids (sheets (data file_data))).
  destruct (evaluate_sheets _) as [l r]. simpl in *. rewrite Hids. exact Hin.
Qed.

(** C9, at the input on which it fails.  Loading [two_colon_record] reports
    failure, because re-evaluation raises inside the [try] block, after the
    session was overwritten: the previous document, its file information and
    its modified flag are gone. *)
Theorem load_failure_replaces_session :
  snd (load_spreadsheet (Ok two_colon_record) edited_session) = false
  /\ spreadsheet_data (fst (load_spreadsheet (Ok two_colon_record) edited_session))
     = data two_colon_record
  /\ spreadsheet_data (fst (load_spreadsheet (Ok two_colon_record) edited_session))
     <> spreadsheet_data edited_session
  /\ current_file (fst (load_spreadsheet (Ok two_colon_record) edited_session))
     = Some (info two_colon_record)
  /\ current_file edited_session = None
  /\ is_modified (fst (load_spreadsheet (Ok two_colon_record) edited_session)) = false
  /\ is_modified edited_session = true.
Proof.
  repeat split; try reflexivity.
  intros H. apply (f_equal activeSheet) in H. discriminate H.
Qed.

End Store.

(* ================================================================== *)
(** * The statements at concrete inputs                                *)
(* ================================================================== *)

Lemma sum_list_supported_average_list_text_witness :
  parse_formula "=SUM(A1, A2 ,B1)" sample_sheet = Ok (Number (PFloat (3 # 1)%Q))
  /\ parse_formula "=AVERAGE(A1, A2 ,B1)" sample_sheet = Ok (Text "AVERAGE(A1, A2 ,B1)")
  /\ parse_formula "AVERAGE(A1,B1,C1)" sample_sheet = Ok (Text "AVERAGE(A1,B1,C1)").
Proof.
  apply (sum_list_supported_average_list_text sample_sheet ["A1"; " A2 "; "B1"]).
  - discriminate.
  - repeat constructor.
Defined.

Lemma aggregation_skips_non_numeric_witness :
  parse_formula "=SUM(A1:B2)" sample_sheet = Ok (Number (PFloat (3 # 1)%Q))
  /\ parse_formula "=AVERAGE(A1:B2)" sample_sheet = Ok (Number (PFloat (3 # 2)%Q)).
Proof.
  destruct (aggregation_skips_non_numeric sample_sheet "A1" "B2"
              {| rowIndex := 0; colIndex := 0 |} {| rowIndex := 1; colIndex := 1 |}
              eq_refl eq_refl eq_refl eq_refl) as (_ & _ & Hs & Ha & _).
  split; [exact Hs | exact Ha].
Defined.

Lemma range_corner_order_witness :
  parse_formula "=SUM(B2:A1)" sample_sheet = parse_formula "=SUM(A1:B2)" sample_sheet
  /\ parse_formula "=AVERAGE(B2:A1)" sample_sheet
     = parse_formula "=AVERAGE(A1:B2)" sample_sheet.
Proof.
  destruct (range_corner_order sample_sheet "B2" "A1"
              {| rowIndex := 1; colIndex := 1 |} {| rowIndex := 0; colIndex := 0 |}
              eq_refl eq_refl eq_refl eq_refl) as (Hs & Ha & _).
  split; [exact Hs | exact Ha].
Defined.

Lemma update_cell_unknown_sheet_witness :
  update_cell "sheet9" "A1" clear_value edited_session = (edited_session, Ok tt).
Proof.
  apply (update_cell_unknown_sheet "sheet9" "A1" clear_value edited_session).
  intros [H | [H | []]]; discriminate H.
Defined.

(** C8 as stated fails: the call on an unknown sheet id raises nothing and
    changes nothing. *)
Lemma update_cell_unknown_sheet_is_silent :
  ~ In "nosuch" (sheet_ids initial_session)
  /\ ~ raises (snd (update_cell "nosuch" "A1" clear_value initial_session))
  /\ fst (update_cell "nosuch" "A1" clear_value initial_session) = initial_session.
Proof.
  split; [intros [H | []]; discriminate H|].
  split; [intros [e H]; discriminate H | reflexivity].
Qed.

Lemma active_sheet_pointer_witness :
  active_sheet_valid (set_active_sheet "sheet2" edited_session)
  /\ active_sheet_valid (add_sheet edited_session)
  /\ is_modified (set_active_sheet "sheet1" initial_session) = false.
Proof.
  assert (Hv : active_sheet_valid edited_session) by (right; left; reflexivity).
  destruct (active_sheet_pointer edited_session "sheet2" Hv)
    as (_ & _ & _ & Hset & _ & Hadd & _).
  destruct (active_sheet_pointer initial_session "sheet1" (or_introl eq_refl))
    as (Hmod & _).
  split; [apply Hset; right; left; reflexivity|].
  split; [exact Hadd | exact Hmod].
Defined.

(** C7 as stated fails: on an id the document does not have,
    [set_active_sheet] moves the pointer, which then names no sheet. *)
Lemma set_active_sheet_unknown_id :
  active_sheet_valid initial_session
  /\ ~ In "ghost" (sheet_ids initial_session)
  /\ activeSheet (spreadsheet_data (set_active_sheet "ghost" initial_session))
     <> activeSheet (spreadsheet_data initial_session)
  /\ ~ active_sheet_valid (set_active_sheet "ghost" initial_session).
Proof.
  split; [left; reflexivity|].
  split; [intros [H | []]; discriminate H|].
  split; [discriminate|].
  intros [H | []]; discriminate H.
Qed.

(** [two_colon_record] is a document the program itself produces: typing the
    formula raises out of [update_cell] but stores it, and a save then
    writes the document. *)
Example two_colon_record_reachable :
  let '(st, r) := update_cell "sheet1" "A1"
                    {| d_value := Some PNone;
                       d_formula := Some (PStr "=SUM(A1:B1:C1)");
                       d_cachedValue := None |}
                    initial_session in
  r = Raise ValueError
  /\ spreadsheet_data st = data two_colon_record
  /\ snd (save_spreadsheet (PStr "Budget") "f1" "2024-01-01T00:00:00" true st) = true.
Proof. repeat split. Qed.

(** [add_sheet] numbers a new sheet by the length of the list, so ids can
    repeat after a removal; removing a repeated id that is active empties
    the list and the lookup of the first remaining sheet raises. *)
Example remove_sheet_repeated_id_raises :
  let st := add_sheet (fst (remove_sheet "sheet1" (add_sheet (add_sheet initial_session)))) in
  let st' := fst (remove_sheet "sheet2" st) in
  sheet_ids st' = ["sheet3"; "sheet3"]
  /\ snd (remove_sheet "sheet3" st') = Raise IndexError
  /\ sheets (spreadsheet_data (fst (remove_sheet "sheet3" st'))) = [].
Proof. repeat split. Qed.

(* ================================================================== *)
(** * Further properties: address codec                                *)
(* ================================================================== *)

Lemma forallb_str_list (p : ascii -> bool) (s : string) :
  forallb_str p s = forallb p (list_ascii_of_string s).
Proof. induction s as [|c s IH]; simpl; [reflexivity | now rewrite IH]. Qed.

Lemma ord_inj (a b : ascii) : ord a = ord b -> a = b.
Proof.
  unfold ord. intros H. apply N2Z.inj in H.
  rewrite <- (ascii_N_embedding a), <- (ascii_N_embedding b). now rewrite H.
Qed.

Lemma letters_fold_bounds (l : list ascii) :
  forall start,
    forallb is_upper l = true -> 0 <= start ->
    start <= letters_fold l start /\ (l <> [] -> 1 <= letters_fold l start).
Proof.
  induction l as [|c l IH]; intros start Hu Hs.
  - split; [simpl; lia | congruence].
  - cbn [forallb] in Hu. apply andb_true_iff in Hu as [Hc Hl].
    unfold is_upper in Hc.
    destruct (IH (start * 26 + (ord c - 64)) Hl ltac:(lia)) as [Hle _].
    unfold letters_fold in *. cbn [fold_left]. split; [lia | intros _; lia].
Qed.

Lemma letters_fold_inj (l1 : list ascii) :
  forall l2,
    forallb is_upper l1 = true -> forallb is_upper l2 = true ->
    letters_fold l1 0 = letters_fold l2 0 -> l1 = l2.
Proof.
  induction l1 as [|x l1 IH] using rev_ind; intros l2 H1 H2 E;
    destruct l2 as [|y l2 _] using rev_ind.
  - reflexivity.
  - destruct (letters_fold_bounds (l2 ++ [y]) 0 H2 ltac:(lia)) as [_ Hp].
    specialize (Hp ltac:(now destruct l2)). simpl in E. lia.
  - destruct (letters_fold_bounds (l1 ++ [x]) 0 H1 ltac:(lia)) as [_ Hp].
    specialize (Hp ltac:(now destruct l1)). simpl in E. lia.
  - rewrite forallb_app in H1, H2.
    apply andb_true_iff in H1 as [H1 Hx], H2 as [H2 Hy].
    cbn [forallb] in Hx, Hy. rewrite andb_true_r in Hx, Hy.
    unfold letters_fold in E. rewrite !fold_left_app in E. cbn [fold_left] in E.
    fold (letters_fold l1 0) (letters_fold l2 0) in E.
    destruct (letters_fold_bounds l1 0 H1 ltac:(lia)) as [Ha _].
    destruct (letters_fold_bounds l2 0 H2 ltac:(lia)) as [Hb _].
    unfold is_upper in Hx, Hy.
    assert (letters_fold l1 0 = letters_fold l2 0 /\ ord x = ord y) as [E1 E2] by lia.
    f_equal; [now apply IH | f_equal; now apply ord_inj].
Qed.

Lemma list_ascii_of_string_inj (a b : string) :
  list_ascii_of_string a = list_ascii_of_string b -> a = b.
Proof.
  intros H. rewrite <- (string_of_list_ascii_of_string a),
                    <- (string_of_list_ascii_of_string b). now rewrite H.
Qed.


(** X1.  Decoding a column name and encoding the index gives the name
    back, for every non-empty string of capitals. *)
Theorem index_to_column_column_to_index (column : string) :
  is_empty column = false -> forallb_str is_upper column = true ->
  0 <= column_to_index column
  /\ index_to_column (column_to_index column) = column.
Proof.
  intros He Hu.
  assert (Hl : forallb is_upper (list_ascii_of_string column) = true)
    by now rewrite <- forallb_str_list.
  destruct (letters_fold_bounds _ 0 Hl ltac:(lia)) as [_ Hp].
  specialize (Hp ltac:(destruct column; [discriminate He | discriminate])).
  assert (Hi : 0 <= column_to_index column)
    by (unfold column_to_index; fold (letters_fold (list_ascii_of_string column) 0); lia).
  split; [exact Hi|].
  destruct (index_to_column_spec _ Hi) as (Hv & Hup & _).
  apply list_ascii_of_string_inj, letters_fold_inj.
  - now rewrite <- forallb_str_list.
  - exact Hl.
  - unfold column_fold in Hv. unfold letters_fold, column_to_index in *. lia.
Qed.

(** X2.  A column name is made of capitals and has at least one when the
    index is not negative; a negative index gives the empty string. *)
Theorem index_to_column_letters (index : Z) :
  (0 <= index ->
     forallb_str is_upper (index_to_column index) = true
     /\ is_empty (index_to_column index) = false)
  /\ (index < 0 -> index_to_column index = "").
Proof.
  split.
  - intros H. destruct (index_to_column_spec index H) as (_ & Hu & He). auto.
  - intros H. unfold index_to_column. cbn [index_to_column_loop].
    destruct (0 <=? index) eqn:E; [lia | reflexivity].
Qed.



Lemma index_to_column_column_to_index_witness :
  0 <= column_to_index "XFD" /\ index_to_column (column_to_index "XFD") = "XFD".
Proof. apply (index_to_column_column_to_index "XFD"); reflexivity. Defined.










Section Evaluator_further.

Context {fl : PyFloat}.

Lemma fold_left_ext {A B} (f g : A -> B -> A) (l : list B) (a : A) :
  (forall x y, f x y = g x y) -> fold_left f l a = fold_left g l a.
Proof.
  intros H. revert a. induction l as [|b l IH]; intros a; [reflexivity|].
  simpl. now rewrite H, IH.
Qed.

Lemma numeric_value_same_values (ws ws' : sheet) (r : string) :
  same_values ws ws' -> numeric_value ws r = numeric_value ws' r.
Proof.
  intros H. specialize (H r). unfold numeric_value.
  destruct (lookup r (cells ws)) as [c|], (lookup r (cells ws')) as [c'|];
    simpl in H; try discriminate; [|reflexivity].
  now injection H as ->.
Qed.

Lemma parse_formula_ext (formula : string) (ws ws' : sheet) :
  (forall r, numeric_value ws r = numeric_value ws' r) ->
  parse_formula formula ws = parse_formula formula ws'.
Proof.
  intros H.
  assert (Hs : forall acc r, sum_step ws acc r = sum_step ws' acc r)
    by (intros; unfold sum_step; now rewrite H).
  assert (Ha : forall acc r, average_step ws acc r = average_step ws' acc r)
    by (intros; unfold average_step; now rewrite H).
  unfold parse_formula, sum_block, average_block.
  rewrite (fold_left_ext _ _ _ _ Hs).
  destruct (startswith "SUM(" _ && endswith ")" _);
    destruct (startswith "AVERAGE(" _ && endswith ")" _);
    repeat match goal with
      | |- context [for_rectangle (sum_step ws) ?a ?b ?c ?d ?i] =>
          rewrite (for_rectangle_fold (sum_step ws) a b c d i),
                  (fold_left_ext _ _ _ _ Hs),
                  <- (for_rectangle_fold (sum_step ws') a b c d i)
      | |- context [for_rectangle (average_step ws) ?a ?b ?c ?d ?i] =>
          rewrite (for_rectangle_fold (average_step ws) a b c d i),
                  (fold_left_ext _ _ _ _ Ha),
                  <- (for_rectangle_fold (average_step ws') a b c d i)
      | |- context [match split ":" ?s with _ => _ end] =>
          destruct (split ":" s) as [|? [|? [|? ?]]]
      | |- context [match cell_ref_to_indices ?s with _ => _ end] =>
          destruct (cell_ref_to_indices s)
      | |- context [if contains ":" ?s then _ else _] => destruct (contains ":" s)
      end; reflexivity.
Qed.

Lemma parse_formula_agree (formula : string) (ws ws' : sheet) :
  same_values ws ws' -> parse_formula formula ws = parse_formula formula ws'.
Proof.
  intros H. apply parse_formula_ext. intros r.
  now apply numeric_value_same_values.
Qed.


(** X5.  The evaluator reads nothing of a worksheet but the [value] entries
    of its cells: two worksheets that agree on them give the same result,
    whatever their ids, names, formulas and cached values. *)
Theorem parse_formula_same_values (formula : string) (ws ws' : sheet) :
  same_values ws ws' ->
  parse_formula formula ws = parse_formula formula ws'.
Proof.
  intros H. apply parse_formula_ext. intros r.
  now apply numeric_value_same_values.
Qed.



End Evaluator_further.

(* ================================================================== *)
(** * Further properties: re-evaluation                                *)
(* ================================================================== *)

Section Reevaluation_further.

Context {fl : PyFloat}.

Lemma lookup_app {V} (k : string) (a b : dict V) :
  lookup k (a ++ b)%list
  = match lookup k a with Some v => Some v | None => lookup k b end.
Proof.
  induction a as [|[k' v] a IH]; [reflexivity|].
  cbn [app lookup]. destruct (String.eqb k' k); [reflexivity | exact IH].
Qed.

Lemma same_values_step (ws_id ws_name : string) (done todo : dict cell)
    (cell_ref : string) (c : cell) (v : EvaluationResult) (ws0 : sheet) :
  same_values {| id := ws_id; name := ws_name;
                 cells := (done ++ (cell_ref, c) :: todo)%list |} ws0 ->
  same_values {| id := ws_id; name := ws_name;
                 cells := ((done ++ [(cell_ref, set_cachedValue c v)]) ++ todo)%list |} ws0.
Proof.
  intros H r. specialize (H r). cbn [cells] in *. rewrite <- H.
  rewrite <- app_assoc. rewrite !lookup_app. cbn [app lookup].
  destruct (lookup r done); [reflexivity|].
  destruct (String.eqb cell_ref r); reflexivity.
Qed.

Lemma same_values_skip (ws_id ws_name : string) (done todo : dict cell)
    (kc : string * cell) (ws0 : sheet) :
  same_values {| id := ws_id; name := ws_name; cells := (done ++ kc :: todo)%list |} ws0 ->
  same_values {| id := ws_id; name := ws_name;
                 cells := ((done ++ [kc]) ++ todo)%list |} ws0.
Proof. intros H. now rewrite <- app_assoc. Qed.

(** The loop against the worksheet [ws0] it started from. *)
Lemma evaluate_cells_spec (ws_id ws_name : string) (ws0 : sheet) (todo : dict cell) :
  forall done,
    same_values {| id := ws_id; name := ws_name; cells := (done ++ todo)%list |} ws0 ->
    match snd (evaluate_cells ws_id ws_name done todo) with
    | Ok _ =>
        fst (evaluate_cells ws_id ws_name done todo)
        = (done ++ map (refresh ws0) todo)%list
        /\ (forall kc f, In kc todo -> formula_of (snd kc) = Some f ->
              exists v, parse_formula f ws0 = Ok v)
    | Raise e =>
        e = ValueError
        /\ exists kc f, In kc todo /\ formula_of (snd kc) = Some f
                        /\ parse_formula f ws0 = Raise e
    end.
Proof.
  induction todo as [|[cell_ref c] todo IH]; intros done Hsame.
  - simpl. rewrite app_nil_r. split; [reflexivity | intros ? ? []].
  - cbn [evaluate_cells].
    destruct (formula_of c) as [f|] eqn:Ef.
    + rewrite (parse_formula_agree f _ ws0 Hsame).
      destruct (parse_formula f ws0) as [v|e] eqn:Ep.
      * specialize (IH (done ++ [(cell_ref, set_cachedValue c v)])%list
                       (same_values_step _ _ _ _ _ _ v _ Hsame)).
        destruct (snd (evaluate_cells _ _ _ todo)) as [u|e].
        -- destruct IH as [Heq Hall]. split.
           ++ rewrite Heq, <- app_assoc. cbn [map app]. unfold refresh at 2.
              cbn [snd fst]. now rewrite Ef, Ep.
           ++ intros kc g [<- | Hin] Hg; [|now apply (Hall kc)].
              cbn [snd] in Hg. rewrite Ef in Hg. injection Hg as <-. now exists v.
        -- destruct IH as [He (kc & g & Hin & Hg & Hr)].
           split; [exact He|]. exists kc, g. auto using in_cons.
      * cbn [snd]. destruct (parse_formula_raise_inv f ws0 e Ep) as [-> _].
        split; [reflexivity|]. exists (cell_ref, c), f. auto using in_eq.
    + specialize (IH (done ++ [(cell_ref, c)])%list (same_values_skip _ _ _ _ _ _ Hsame)).
      destruct (snd (evaluate_cells _ _ _ todo)) as [u|e].
      * destruct IH as [Heq Hall]. split.
        -- rewrite Heq, <- app_assoc. cbn [map app]. unfold refresh at 2.
           cbn [snd]. now rewrite Ef.
        -- intros kc g [<- | Hin] Hg; [|now apply (Hall kc)].
           cbn [snd] in Hg. congruence.
      * destruct IH as [He (kc & g & Hin & Hg & Hr)].
        split; [exact He|]. exists kc, g. auto using in_cons.
Qed.

Lemma same_values_refl (ws : sheet) :
  same_values {| id := id ws; name := name ws; cells := cells ws |} ws.
Proof. intros r. reflexivity. Qed.

Lemma evaluate_worksheet_formulas_spec (ws : sheet) :
  match snd (evaluate_worksheet_formulas ws) with
  | Ok _ =>
      fst (evaluate_worksheet_formulas ws)
      = {| id := id ws; name := name ws; cells := map (refresh ws) (cells ws) |}
      /\ formulas_evaluate ws
  | Raise e =>
      e = ValueError
      /\ exists kc f, In kc (cells ws) /\ formula_of (snd kc) = Some f
                      /\ parse_formula f ws = Raise e
  end.
Proof.
  assert (H := evaluate_cells_spec (id ws) (name ws) ws (cells ws) [] (same_values_refl ws)).
  unfold evaluate_worksheet_formulas.
  destruct (evaluate_cells (id ws) (name ws) [] (cells ws)) as [cells' [u|e]];
    cbn [fst snd] in *.
  - destruct H as [-> Hall]. split; [reflexivity | exact Hall].
  - exact H.
Qed.

Lemma evaluate_worksheet_formulas_ok (ws : sheet) :
  formulas_evaluate ws ->
  evaluate_worksheet_formulas ws
  = ({| id := id ws; name := name ws; cells := map (refresh ws) (cells ws) |}, Ok tt).
Proof.
  intros Hall. assert (H := evaluate_worksheet_formulas_spec ws).
  destruct (evaluate_worksheet_formulas ws) as [ws' [[]|e]]; cbn [fst snd] in H.
  - destruct H as [-> _]. reflexivity.
  - destruct H as (_ & kc & f & Hin & Hf & Hr).
    destruct (Hall kc f Hin Hf) as [v Hv]. congruence.
Qed.

Lemma refresh_keeps (ws : sheet) (kc : string * cell) :
  fst (refresh ws kc) = fst kc
  /\ value (snd (refresh ws kc)) = value (snd kc)
  /\ formula (snd (refresh ws kc)) = formula (snd kc).
Proof.
  unfold refresh. destruct (formula_of (snd kc)); [|auto].
  destruct (parse_formula _ ws); auto.
Qed.

Lemma lookup_map_refresh (ws : sheet) (l : dict cell) (r : string) :
  option_map value (lookup r (map (refresh ws) l)) = option_map value (lookup r l).
Proof.
  induction l as [|[k c] l IH]; [reflexivity|].
  cbn [map lookup]. destruct (refresh_keeps ws (k, c)) as (Hk & Hv & _).
  destruct (refresh ws (k, c)) as [k' c']. cbn [fst snd] in *. subst k'.
  destruct (String.eqb k r); [simpl; now rewrite Hv | exact IH].
Qed.

(** X8.  A re-evaluation pass completes exactly when every formula of the
    worksheet evaluates on it.  It then gives every formula cell the value
    of its formula on the worksheet as it was before the pass, so the
    order of the cells does not matter; the only exception it lets through
    is [ValueError]. *)
Theorem evaluate_worksheet_formulas_result (ws : sheet) :
  (snd (evaluate_worksheet_formulas ws) = Ok tt <-> formulas_evaluate ws)
  /\ (snd (evaluate_worksheet_formulas ws) = Ok tt ->
        fst (evaluate_worksheet_formulas ws)
        = {| id := id ws; name := name ws; cells := map (refresh ws) (cells ws) |})
  /\ (forall e, snd (evaluate_worksheet_formulas ws) = Raise e -> e = ValueError).
Proof.
  assert (H := evaluate_worksheet_formulas_spec ws).
  destruct (snd (evaluate_worksheet_formulas ws)) as [[]|e] eqn:E.
  - destruct H as [Heq Hall]. repeat split; auto. discriminate.
  - destruct H as (He & kc & f & Hin & Hf & Hr). repeat split.
    + discriminate.
    + intros Hall. destruct (Hall kc f Hin Hf) as [v Hv]. congruence.
    + discriminate.
    + now intros e' [= <-].
Qed.

(** X9.  Re-evaluation is idempotent: a second pass over a worksheet whose
    formulas all evaluate changes nothing. *)
Theorem evaluate_worksheet_formulas_idempotent (ws : sheet) :
  formulas_evaluate ws ->
  evaluate_worksheet_formulas (fst (evaluate_worksheet_formulas ws))
  = evaluate_worksheet_formulas ws.
Proof.
  intros Hall. rewrite (evaluate_worksheet_formulas_ok ws Hall). cbn [fst].
  set (ws1 := {| id := id ws; name := name ws; cells := map (refresh ws) (cells ws) |}).
  assert (Hsame : same_values ws1 ws) by (intros r; apply lookup_map_refresh).
  assert (Hall1 : formulas_evaluate ws1).
  { intros kc f Hin Hf. cbn [cells ws1] in Hin.
    apply in_map_iff in Hin as (kc0 & <- & Hin0).
    destruct (refresh_keeps ws kc0) as (_ & _ & Hfo).
    unfold formula_of in Hf. rewrite Hfo in Hf.
    destruct (Hall kc0 f Hin0 Hf) as [v Hv]. exists v.
    now rewrite (parse_formula_agree f ws1 ws Hsame). }
  rewrite (evaluate_worksheet_formulas_ok ws1 Hall1). cbn [id name cells ws1].
  f_equal. unfold ws1 at 2. f_equal. rewrite map_map. apply map_ext_in. intros kc Hin.
  unfold refresh at 1. destruct (refresh_keeps ws kc) as (Hk & _ & Hfo).
  unfold formula_of at 1. rewrite Hfo. fold (formula_of (snd kc)).
  destruct (formula_of (snd kc)) as [f|] eqn:Ef; [|reflexivity].
  rewrite (parse_formula_agree f ws1 ws Hsame).
  destruct (Hall kc f Hin Ef) as [v Hv]. rewrite Hv.
  unfold refresh. rewrite Ef, Hv. reflexivity.
Qed.

End Reevaluation_further.

(* ================================================================== *)
(** * Further properties: cell store                                   *)
(* ================================================================== *)

Section Store_further.

Context {fl : PyFloat}.

Lemma lookup_dict_set_same {V} (k : string) (v : V) (d : dict V) :
  lookup k (dict_set k v d) = Some v.
Proof.
  induction d as [|[k' v'] d IH]; cbn [dict_set lookup].
  - now rewrite String.eqb_refl.
  - destruct (String.eqb k' k) eqn:E; cbn [lookup]; rewrite E; [reflexivity | exact IH].
Qed.

Lemma lookup_dict_set_other {V} (k k' : string) (v : V) (d : dict V) :
  k' <> k -> lookup k' (dict_set k v d) = lookup k' d.
Proof.
  intros Hne. induction d as [|[k0 v0] d IH]; cbn [dict_set lookup].
  - destruct (String.eqb_spec k k'); [congruence | reflexivity].
  - destruct (String.eqb_spec k0 k) as [->|Hk]; cbn [lookup].
    + destruct (String.eqb_spec k k'); [congruence | reflexivity].
    + destruct (String.eqb k0 k'); [reflexivity | exact IH].
Qed.

Lemma find_sheet_replace (sheet_id : string) (ws ws' : sheet) (l : list sheet) :
  find_sheet sheet_id l = Some ws -> id ws' = sheet_id ->
  find_sheet sheet_id (replace_sheet sheet_id ws' l) = Some ws'.
Proof.
  intros Hf Hid. induction l as [|s l IH]; [discriminate|].
  cbn [find_sheet replace_sheet] in *.
  destruct (String.eqb (id s) sheet_id) eqn:E; cbn [find_sheet].
  - rewrite Hid, String.eqb_refl. reflexivity.
  - rewrite E. now apply IH.
Qed.

Lemma find_sheet_replace_other (sheet_id other : string) (ws' : sheet) (l : list sheet) :
  other <> sheet_id -> id ws' = sheet_id ->
  find_sheet other (replace_sheet sheet_id ws' l) = find_sheet other l.
Proof.
  intros Hne Hid. induction l as [|s l IH]; [reflexivity|].
  cbn [find_sheet replace_sheet].
  destruct (String.eqb_spec (id s) sheet_id) as [E|E]; cbn [find_sheet].
  - rewrite Hid, E.
    destruct (String.eqb_spec sheet_id other); [congruence | reflexivity].
  - destruct (String.eqb (id s) other); [reflexivity | exact IH].
Qed.

(** The shape of [update_cell] on a sheet the document has. *)
Lemma update_cell_found (sheet_id cell_ref : string) (data : cell_update)
    (st : session) (ws : sheet) :
  find_sheet sheet_id (sheets (spreadsheet_data st)) = Some ws ->
  exists ws2,
    fst (update_cell sheet_id cell_ref data st)
    = with_sheets st (activeSheet (spreadsheet_data st))
        (replace_sheet sheet_id ws2 (sheets (spreadsheet_data st))) true
    /\ id ws2 = sheet_id /\ name ws2 = name ws
    /\ Forall2 same_key_only_cache_written
         (dict_set cell_ref (merge (cell_before ws cell_ref) data) (cells ws))
         (cells ws2).
Proof.
  intros Hf. unfold update_cell. rewrite Hf.
  fold (cell_before ws cell_ref).
  set (ws1 := {| id := id ws; name := name ws; cells := _ |}).
  assert (Hid := find_sheet_some_id _ _ _ Hf).
  destruct (evaluate_worksheet_formulas_cells ws1) as (Hi & Hn & Hall).
  cbn [id name cells ws1] in Hi, Hn.
  assert (Heval : exists ws2,
            fst (let '(ws2, r) := evaluate_worksheet_formulas ws1 in
                 (with_sheets st (activeSheet (spreadsheet_data st))
                    (replace_sheet sheet_id ws2 (sheets (spreadsheet_data st))) true, r))
            = with_sheets st (activeSheet (spreadsheet_data st))
                (replace_sheet sheet_id ws2 (sheets (spreadsheet_data st))) true
            /\ id ws2 = sheet_id /\ name ws2 = name ws
            /\ Forall2 same_key_only_cache_written (cells ws1) (cells ws2)).
  { destruct (evaluate_worksheet_formulas ws1) as [ws2 r]. cbn [fst] in *.
    exists ws2. split; [reflexivity|]. split; [congruence|]. split; assumption. }
  destruct (d_formula data), (d_value data); try exact Heval.
  exists ws1. split; [reflexivity|]. split; [exact Hid|].
  split; [reflexivity | apply Forall2_same_key_refl].
Qed.

(** X10.  [update_cell] on a sheet the document has marks the session
    modified and writes the cell: afterwards the cell exists, and its
    [value] and [formula] are those of the update where the update carries
    them and the old ones elsewhere.  Every other cell of the sheet keeps its
    [value] and [formula], and the other sheets, the active-sheet pointer and
    the file information are untouched.  This holds also when re-evaluation
    raises. *)
Theorem update_cell_writes (sheet_id cell_ref : string) (data : cell_update)
    (st : session) (ws : sheet) :
  find_sheet sheet_id (sheets (spreadsheet_data st)) = Some ws ->
  let st' := fst (update_cell sheet_id cell_ref data st) in
  is_modified st' = true
  /\ activeSheet (spreadsheet_data st') = activeSheet (spreadsheet_data st)
  /\ current_file st' = current_file st
  /\ (forall other, other <> sheet_id ->
        find_sheet other (sheets (spreadsheet_data st'))
        = find_sheet other (sheets (spreadsheet_data st)))
  /\ exists ws',
       find_sheet sheet_id (sheets (spreadsheet_data st')) = Some ws'
       /\ name ws' = name ws
       /\ (exists c',
             lookup cell_ref (cells ws') = Some c'
             /\ value c' = value (merge (cell_before ws cell_ref) data)
             /\ formula c' = formula (merge (cell_before ws cell_ref) data))
       /\ (forall r, r <> cell_ref ->
             match lookup r (cells ws), lookup r (cells ws') with
             | Some c, Some c' => value c' = value c /\ formula c' = formula c
             | None, None => True
             | _, _ => False
             end).
Proof.
  intros Hf st'. subst st'.
  destruct (update_cell_found sheet_id cell_ref data st ws Hf)
    as (ws2 & -> & Hid & Hn & Hall).
  cbn [with_sheets is_modified spreadsheet_data activeSheet sheets current_file].
  repeat (split; [reflexivity|]).
  split; [intros other Hne; now apply find_sheet_replace_other|].
  exists ws2. split; [now apply (find_sheet_replace _ ws)|].
  split; [exact Hn|]. split.
  - assert (H := Forall2_same_key_lookup _ _ cell_ref Hall).
    rewrite lookup_dict_set_same in H.
    destruct (lookup cell_ref (cells ws2)) as [c'|]; [|contradiction].
    exists c'. destruct H as (Hv & Hfo & _). auto.
  - intros r Hne. assert (H := Forall2_same_key_lookup _ _ r Hall).
    rewrite (lookup_dict_set_other cell_ref r _ _ Hne) in H.
    destruct (lookup r (cells ws)), (lookup r (cells ws2)); try exact H.
    destruct H as (Hv & Hfo & _). auto.
Qed.

(** Dropping sheets keeps the remaining ids distinct. *)
Lemma kept_ids_distinct (keep : sheet -> bool) (all : list sheet) :
  NoDup (map id all) -> NoDup (map id (filter keep all)).
Proof.
  intros Hnd. induction all as [|s all IH]; cbn [filter map]; [constructor|].
  apply NoDup_cons_iff in Hnd as [Hfresh Hnd].
  destruct (keep s); [|now apply IH].
  cbn [map]. apply NoDup_cons_iff. split; [|now apply IH].
  intros Hin. apply in_map_iff in Hin as (s' & Hid & Hin).
  apply filter_In in Hin as [Hin _].
  apply Hfresh. apply in_map_iff. now exists s'.
Qed.

Lemma filter_other_ids (sheet_id : string) (l : list sheet) :
  ~ In sheet_id (map id l) ->
  filter (fun s => negb (String.eqb (id s) sheet_id)) l = l.
Proof.
  induction l as [|s l IH]; intros H; [reflexivity|].
  cbn [filter]. destruct (String.eqb_spec (id s) sheet_id) as [E|E].
  - exfalso. apply H. now left.
  - cbn [negb]. f_equal. apply IH. intros Hin. apply H. now right.
Qed.

Lemma filter_removes_id (sheet_id : string) (l : list sheet) :
  ~ In sheet_id (map id (filter (fun s => negb (String.eqb (id s) sheet_id)) l)).
Proof.
  intros Hin. apply in_map_iff in Hin as (s & Hs & Hin).
  apply filter_In in Hin as [_ Hp].
  apply negb_true_iff, String.eqb_neq in Hp. congruence.
Qed.

(** X11.  On a document whose sheet ids are distinct and whose active-sheet
    pointer names one of its sheets, [remove_sheet] always returns, and
    leaves a document with at least one sheet, distinct ids and a valid
    pointer; when the document had two sheets or more, the removed id is
    gone. *)
Theorem remove_sheet_well_formed (sheet_id : string) (st : session) :
  ids_distinct st -> active_sheet_valid st ->
  snd (remove_sheet sheet_id st) = Ok tt
  /\ sheets (spreadsheet_data (fst (remove_sheet sheet_id st))) <> []
  /\ ids_distinct (fst (remove_sheet sheet_id st))
  /\ active_sheet_valid (fst (remove_sheet sheet_id st))
  /\ ((1 < List.length (sheets (spreadsheet_data st)))%nat ->
        ~ In sheet_id (sheet_ids (fst (remove_sheet sheet_id st)))).
Proof.
  unfold ids_distinct, active_sheet_valid, sheet_ids, remove_sheet.
  intros Hnd Hv.
  destruct (Nat.leb_spec (List.length (sheets (spreadsheet_data st))) 1) as [Hlen|Hlen].
  { cbn [fst snd]. repeat split; try assumption; [|lia].
    intros E. rewrite E in Hv. exact Hv. }
  set (kept := filter _ _).
  assert (Hk : kept <> []).
  { destruct (sheets (spreadsheet_data st)) as [|s1 [|s2 l]] eqn:El;
      try (simpl in Hlen; lia).
    cbn [map] in Hnd. inversion Hnd as [|? ? Hnotin _]; subst.
    subst kept. cbn [filter].
    destruct (String.eqb_spec (id s1) sheet_id) as [E1|E1]; [|discriminate].
    destruct (String.eqb_spec (id s2) sheet_id) as [E2|E2]; [|discriminate].
    exfalso. apply Hnotin. left. congruence. }
  assert (Hkd : NoDup (map id kept)) by now apply kept_ids_distinct.
  assert (Hgone : ~ In sheet_id (map id kept)) by apply filter_removes_id.
  destruct (String.eqb_spec (activeSheet (spreadsheet_data st)) sheet_id) as [E|E].
  - destruct kept as [|first rest] eqn:Ek; [congruence|].
    cbn [fst snd with_sheets spreadsheet_data sheets activeSheet].
    repeat split; auto. now left.
  - cbn [fst snd with_sheets spreadsheet_data sheets activeSheet].
    repeat split; auto.
    apply in_map_iff in Hv as (s & Hs & Hin). apply in_map_iff. exists s.
    split; [exact Hs|]. apply filter_In. split; [exact Hin|].
    apply negb_true_iff, String.eqb_neq. congruence.
Qed.

(** X12.  Removing an id that no sheet has, from a document of two sheets
    or more with a valid pointer, changes neither the sheets nor the
    pointer, and still marks the session modified. *)
Theorem remove_sheet_unknown_id (sheet_id : string) (st : session) :
  active_sheet_valid st ->
  ~ In sheet_id (sheet_ids st) ->
  (1 < List.length (sheets (spreadsheet_data st)))%nat ->
  snd (remove_sheet sheet_id st) = Ok tt
  /\ spreadsheet_data (fst (remove_sheet sheet_id st)) = spreadsheet_data st
  /\ is_modified (fst (remove_sheet sheet_id st)) = true.
Proof.
  unfold active_sheet_valid, sheet_ids, remove_sheet. intros Hv Hnot Hlen.
  destruct (Nat.leb_spec (List.length (sheets (spreadsheet_data st))) 1); [lia|].
  rewrite (filter_other_ids _ _ Hnot).
  destruct (String.eqb_spec (activeSheet (spreadsheet_data st)) sheet_id) as [E|E];
    [congruence|].
  cbn [fst snd with_sheets spreadsheet_data is_modified].
  repeat split. now destruct (spreadsheet_data st).
Qed.

Lemma rename_first_unknown (sheet_id new_name : string) (l : list sheet) :
  ~ In sheet_id (map id l) -> rename_first sheet_id new_name l = (l, false).
Proof.
  induction l as [|s l IH]; intros H; [reflexivity|]. cbn [rename_first].
  destruct (String.eqb_spec (id s) sheet_id) as [E|E].
  - exfalso. apply H. now left.
  - rewrite IH; [reflexivity|]. intros Hin. apply H. now right.
Qed.

Lemma rename_first_known (sheet_id new_name : string) (l : list sheet) (ws : sheet) :
  find_sheet sheet_id l = Some ws ->
  snd (rename_first sheet_id new_name l) = true
  /\ find_sheet sheet_id (fst (rename_first sheet_id new_name l))
     = Some {| id := id ws; name := new_name; cells := cells ws |}
  /\ map cells (fst (rename_first sheet_id new_name l)) = map cells l
  /\ (forall other, other <> sheet_id ->
        find_sheet other (fst (rename_first sheet_id new_name l)) = find_sheet other l).
Proof.
  induction l as [|s l IH]; intros Hf; [discriminate|].
  cbn [rename_first find_sheet] in *.
  destruct (String.eqb_spec (id s) sheet_id) as [E|E].
  - injection Hf as <-. cbn [fst snd find_sheet id map].
    rewrite E, String.eqb_refl. repeat split.
    intros other Hne. destruct (String.eqb_spec sheet_id other); [congruence|reflexivity].
  - destruct (IH Hf) as (Hfound & Hfs & Hc & Ho).
    destruct (rename_first sheet_id new_name l) as [l' found].
    cbn [fst snd find_sheet map] in *.
    destruct (String.eqb_spec (id s) sheet_id); [contradiction|].
    repeat split; [exact Hfound | exact Hfs | now rewrite Hc |].
    intros other Hne. destruct (String.eqb (id s) other); [reflexivity|now apply Ho].
Qed.

(** X13.  [rename_sheet] on an id no sheet has leaves the session as it
    was, unmodified flag included.  On an id the document has it marks the
    session modified and renames the first sheet with that id: that sheet
    keeps its id and cells, and every sheet keeps its cells and its place. *)
Theorem rename_sheet_effect (sheet_id new_name : string) (st : session) :
  (~ In sheet_id (sheet_ids st) -> rename_sheet sheet_id new_name st = st)
  /\ (forall ws,
        find_sheet sheet_id (sheets (spreadsheet_data st)) = Some ws ->
        let st' := rename_sheet sheet_id new_name st in
        is_modified st' = true
        /\ find_sheet sheet_id (sheets (spreadsheet_data st'))
           = Some {| id := id ws; name := new_name; cells := cells ws |}
        /\ sheet_ids st' = sheet_ids st
        /\ map cells (sheets (spreadsheet_data st'))
           = map cells (sheets (spreadsheet_data st))
        /\ activeSheet (spreadsheet_data st') = activeSheet (spreadsheet_data st)
        /\ (forall other, other <> sheet_id ->
              find_sheet other (sheets (spreadsheet_data st'))
              = find_sheet other (sheets (spreadsheet_data st)))).
Proof.
  unfold rename_sheet, sheet_ids. split.
  - intros H. rewrite (rename_first_unknown _ _ _ H).
    destruct st as [[active l] cf m fv ac]. reflexivity.
  - intros ws Hf. destruct (rename_first_known sheet_id new_name _ ws Hf)
      as (Hfound & Hfs & Hc & Ho).
    assert (Hids := rename_first_ids sheet_id new_name (sheets (spreadsheet_data st))).
    destruct (rename_first sheet_id new_name _) as [l' found].
    cbn [fst snd] in *. subst found.
    cbn [with_sheets is_modified spreadsheet_data sheets activeSheet].
    repeat split; assumption.
Qed.

(** X14.  Adding a sheet and removing it again gives back the sheets the
    document had, when the id [add_sheet] chose was not in use; the active
    sheet is then the first sheet, not the one that was active before. *)
Theorem add_then_remove_sheet (st : session) (first : sheet) (rest : list sheet) :
  sheets (spreadsheet_data st) = first :: rest ->
  ~ In (activeSheet (spreadsheet_data (add_sheet st))) (sheet_ids st) ->
  let added := activeSheet (spreadsheet_data (add_sheet st)) in
  snd (remove_sheet added (add_sheet st)) = Ok tt
  /\ sheets (spreadsheet_data (fst (remove_sheet added (add_sheet st))))
     = sheets (spreadsheet_data st)
  /\ activeSheet (spreadsheet_data (fst (remove_sheet added (add_sheet st))))
     = id first
  /\ is_modified (fst (remove_sheet added (add_sheet st))) = true.
Proof.
  intros Hs Hfresh added. subst added.
  unfold sheet_ids in Hfresh. unfold remove_sheet.
  remember (add_sheet st) as st1 eqn:E1.
  assert (Hsh : sheets (spreadsheet_data st1)
                = (sheets (spreadsheet_data st)
                   ++ [{| id := activeSheet (spreadsheet_data st1);
                          name := "Sheet" ++ str_of_int
                                    (Z.of_nat (List.length (sheets (spreadsheet_data st))) + 1);
                          cells := [] |}])%list)
    by (subst st1; reflexivity).
  rewrite Hsh. rewrite length_app. cbn [List.length].
  destruct (Nat.leb_spec (List.length (sheets (spreadsheet_data st)) + 1) 1) as [Hl|Hl];
    [rewrite Hs in Hl; simpl in Hl; lia|].
  rewrite filter_app, (filter_other_ids _ _ Hfresh).
  cbn [filter id]. rewrite !String.eqb_refl. cbn [negb]. rewrite app_nil_r.
  rewrite Hs. cbn [fst snd with_sheets spreadsheet_data sheets activeSheet is_modified].
  auto.
Qed.

End Store_further.

(* ================================================================== *)
(** * Further properties: formula bar, display and persistence         *)
(* ================================================================== *)

Section Interface_further.

Context {fl : PyFloat}.

Variable str_of_float : float -> string.

Lemma lookup_In {V} (k : string) (v : V) (d : dict V) :
  lookup k d = Some v -> In (k, v) d.
Proof.
  induction d as [|[k' v'] d IH]; [discriminate|]. cbn [lookup].
  destruct (String.eqb_spec k' k) as [->|E].
  - intros [= ->]. now left.
  - intros H. right. now apply IH.
Qed.

Lemma lookup_map_refresh_cell (ws : sheet) (l : dict cell) (r : string) :
  lookup r (map (refresh ws) l)
  = option_map (fun c => snd (refresh ws (r, c))) (lookup r l).
Proof.
  induction l as [|[k c] l IH]; [reflexivity|].
  cbn [map lookup]. destruct (refresh_keeps ws (k, c)) as (Hk & _).
  destruct (refresh ws (k, c)) as [k' c'] eqn:E. cbn [fst] in Hk. subst k'.
  destruct (String.eqb_spec k r) as [->|Hne]; [|exact IH].
  cbn [option_map]. now rewrite E.
Qed.

(** X15.  Committing the formula bar and clicking the cell again: a formula
    comes back into the formula bar as it was typed, while after a literal
    was committed the formula bar receives [None], because the committed
    cell carries a [formula] entry (holding [None]) and the click reads that
    entry first. *)
Theorem commit_then_click (st : session) (ws : sheet) (cell_ref : string) :
  find_sheet (activeSheet (spreadsheet_data st)) (sheets (spreadsheet_data st)) = Some ws ->
  active_cell st = Some cell_ref -> is_empty cell_ref = false ->
  let st1 := fst (commit_formula_value st) in
  formula_value (handle_cell_click cell_ref st1)
  = (if is_formula_text (formula_value st) then formula_value st else PNone)
  /\ active_cell (handle_cell_click cell_ref st1) = Some cell_ref
  /\ is_modified st1 = true.
Proof.
  intros Hf Hac Hne st1. subst st1. unfold commit_formula_value.
  rewrite Hac, Hne.
  assert (H : forall data,
             d_formula data = Some (if is_formula_text (formula_value st)
                                    then formula_value st else PNone) ->
             let st1 := fst (update_cell (activeSheet (spreadsheet_data st))
                               cell_ref data st) in
             formula_value (handle_cell_click cell_ref st1)
             = (if is_formula_text (formula_value st) then formula_value st else PNone)
             /\ active_cell (handle_cell_click cell_ref st1) = Some cell_ref
             /\ is_modified st1 = true).
  { intros data Hd st1. subst st1.
    destruct (update_cell_found _ cell_ref data st ws Hf) as (ws2 & -> & Hid & _ & Hall).
    unfold handle_cell_click.
    cbn [with_sheets spreadsheet_data activeSheet sheets formula_value active_cell
         is_modified].
    rewrite (find_sheet_replace _ ws ws2 _ Hf Hid).
    assert (Hl := Forall2_same_key_lookup _ _ cell_ref Hall).
    rewrite lookup_dict_set_same in Hl.
    destruct (lookup cell_ref (cells ws2)) as [c'|]; [|contradiction].
    destruct Hl as (_ & Hfo & _). rewrite Hfo. cbn [merge formula]. rewrite Hd. auto. }
  destruct (is_formula_text (formula_value st)); apply H; reflexivity.
Qed.

(** X16.  After a literal edit, the update the grid and the formula bar
    send for a value that is not a formula, the cell displays the text that
    was typed ([None] displays as the word None); this holds also when
    re-evaluating the sheet raises. *)
Theorem display_after_literal_edit
    (sheet_id cell_ref : string) (v : pyval) (st : session) (ws : sheet) :
  find_sheet sheet_id (sheets (spreadsheet_data st)) = Some ws ->
  let st' := fst (update_cell sheet_id cell_ref
                    {| d_value := Some v; d_formula := Some PNone;
                       d_cachedValue := None |} st) in
  exists ws' c',
    find_sheet sheet_id (sheets (spreadsheet_data st')) = Some ws'
    /\ lookup cell_ref (cells ws') = Some c'
    /\ get_cell_display_value str_of_float c' = str_of_pyval v.
Proof.
  intros Hf st'. subst st'.
  set (data := {| d_value := Some v; d_formula := Some PNone; d_cachedValue := None |}).
  destruct (update_cell_found sheet_id cell_ref data st ws Hf)
    as (ws2 & -> & Hid & _ & Hall).
  cbn [with_sheets spreadsheet_data sheets].
  exists ws2. rewrite (find_sheet_replace _ ws ws2 _ Hf Hid).
  assert (Hl := Forall2_same_key_lookup _ _ cell_ref Hall).
  rewrite lookup_dict_set_same in Hl.
  destruct (lookup cell_ref (cells ws2)) as [c'|]; [|contradiction].
  exists c'. split; [reflexivity|]. split; [reflexivity|].
  destruct Hl as (Hv & Hfo & _). cbn [merge value formula d_value d_formula data] in Hv, Hfo.
  unfold get_cell_display_value, no_entry, formula_of. rewrite Hv, Hfo. reflexivity.
Qed.

(** X17.  After a formula edit that returns, the cell displays the value
    of its formula on the sheet as it is after the edit. *)
Theorem display_after_formula_edit
    (sheet_id cell_ref f : string) (st st' : session) (ws : sheet) :
  find_sheet sheet_id (sheets (spreadsheet_data st)) = Some ws ->
  is_empty f = false ->
  update_cell sheet_id cell_ref
    {| d_value := Some PNone; d_formula := Some (PStr f); d_cachedValue := None |} st
  = (st', Ok tt) ->
  exists ws' c' v,
    find_sheet sheet_id (sheets (spreadsheet_data st')) = Some ws'
    /\ lookup cell_ref (cells ws') = Some c'
    /\ parse_formula f ws' = Ok v
    /\ get_cell_display_value str_of_float c' = str_of_result str_of_float v.
Proof.
  intros Hf Hne. unfold update_cell. rewrite Hf. cbn [d_formula d_value].
  fold (cell_before ws cell_ref).
  set (c1 := merge (cell_before ws cell_ref) _).
  set (ws1 := {| id := id ws; name := name ws; cells := _ |}).
  assert (Hspec := evaluate_worksheet_formulas_spec ws1).
  destruct (evaluate_worksheet_formulas ws1) as [ws2 r]. cbn [fst snd] in Hspec.
  intros [= <- ->]. destruct Hspec as [-> Hall].
  assert (Hid := find_sheet_some_id _ _ _ Hf).
  cbn [with_sheets spreadsheet_data sheets id name ws1].
  set (ws2 := {| id := id ws; name := name ws; cells := map (refresh ws1) _ |}).
  exists ws2. rewrite (find_sheet_replace _ ws ws2 _ Hf Hid).
  assert (Hl1 : lookup cell_ref (cells ws1) = Some c1) by apply lookup_dict_set_same.
  assert (Hfo : formula_of c1 = Some f).
  { unfold formula_of, c1. cbn [merge formula d_formula get truthy]. now rewrite Hne. }
  destruct (Hall (cell_ref, c1) f (lookup_In _ _ _ Hl1) Hfo) as [v Hv].
  exists (set_cachedValue c1 v), v. split; [reflexivity|]. split.
  - cbn [cells ws2]. rewrite lookup_map_refresh_cell. cbn [cells ws1] in Hl1 |- *.
    rewrite Hl1. cbn [option_map]. unfold refresh. cbn [snd]. now rewrite Hfo, Hv.
  - split.
    + rewrite <- Hv. apply parse_formula_agree. intros r. apply lookup_map_refresh.
    + unfold get_cell_display_value, no_entry.
      cbn [set_cachedValue value formula cachedValue].
      replace (formula_of (set_cachedValue c1 v)) with (Some f) by (symmetry; exact Hfo).
      destruct (value c1), (formula c1); reflexivity.
Qed.

(** X18.  [save_spreadsheet] reports failure in two cases only: no name was
    given and the session has no current file, or the write failed. *)
Theorem save_spreadsheet_fails_iff (name : pyval) (uuid now : string) (ok : bool)
    (st : session) :
  snd (save_spreadsheet name uuid now ok st) = false
  <-> (truthy name = false /\ current_file st = None) \/ ok = false.
Proof.
  unfold save_spreadsheet.
  destruct (truthy name), (current_file st), ok; cbn [snd]; split; intros H;
    try reflexivity; try discriminate; auto;
    destruct H as [[? ?] | ?]; discriminate.
Qed.

Lemma save_spreadsheet_first (n1 u1 t1 : string) (st : session) :
  is_empty n1 = false -> current_file st = None ->
  save_spreadsheet (PStr n1) u1 t1 true st
  = ({| spreadsheet_data := spreadsheet_data st;
        current_file := Some {| file_id := u1; file_name := n1; updatedAt := t1;
                                createdAt := t1; userId := 1 |};
        is_modified := false;
        formula_value := formula_value st;
        active_cell := active_cell st |}, true).
Proof.
  intros Hn Hc. unfold save_spreadsheet. cbn [truthy]. rewrite Hn, Hc. reflexivity.
Qed.

(** X19.  The first successful save of a session without a current file
    takes the fresh identifier and stamps creation and update with the
    current time; a later successful save keeps the identifier and the
    creation time, restamps the update time, keeps the old name when none is
    given, and clears the modified flag.  The document is never changed. *)
Theorem save_twice (n1 : string) (n2 : pyval) (u1 t1 u2 t2 : string) (st : session) :
  is_empty n1 = false -> current_file st = None ->
  let st1 := fst (save_spreadsheet (PStr n1) u1 t1 true st) in
  let st2 := fst (save_spreadsheet n2 u2 t2 true st1) in
  saved_as st1 u1 t1 t1
  /\ saved_as st2 u1 t1 t2
  /\ option_map file_name (current_file st2)
     = Some (match n2 with
             | PStr s => if is_empty s then n1 else s
             | PNone => n1
             end)
  /\ is_modified st2 = false
  /\ spreadsheet_data st2 = spreadsheet_data st.
Proof.
  intros Hn Hc st1 st2. subst st2 st1.
  rewrite (save_spreadsheet_first n1 u1 t1 st Hn Hc). cbn [fst].
  split; [eexists; repeat split|].
  unfold save_spreadsheet, saved_as. cbn [current_file truthy].
  destruct n2 as [|s]; cbn [truthy]; [|destruct (is_empty s)]; cbn;
    (split; [eexists; repeat split|]); auto.
Qed.

Lemma evaluate_sheets_spec (l : list sheet) :
  Forall2 (fun s s' => id s' = id s /\ name s' = name s
                       /\ Forall2 same_key_only_cache_written (cells s) (cells s'))
          l (fst (evaluate_sheets l))
  /\ (snd (evaluate_sheets l) = Ok tt <-> Forall formulas_evaluate l)
  /\ (forall e, snd (evaluate_sheets l) = Raise e -> e = ValueError).
Proof.
  induction l as [|ws l (IH1 & IH2 & IH3)].
  - split; [constructor|]. split; [split; auto | discriminate].
  - cbn [evaluate_sheets].
    destruct (evaluate_worksheet_formulas_cells ws) as (Hi & Hn & Hall).
    assert (Hspec := evaluate_worksheet_formulas_spec ws).
    destruct (evaluate_worksheet_formulas ws) as [ws' [[]|e]]; cbn [fst snd] in *.
    + destruct Hspec as [_ Hev].
      destruct (evaluate_sheets l) as [l' r]. cbn [fst snd] in *.
      split; [constructor; auto|]. split; [|exact IH3].
      rewrite IH2. split; [now constructor | now inversion 1].
    + destruct Hspec as (He & kc & f & Hin & Hf & Hr).
      split.
      * constructor; [auto|]. clear. induction l as [|s l IH]; constructor; [|exact IH].
        repeat split. apply Forall2_same_key_refl.
      * split; [split; [discriminate|]|now intros e' [= <-]].
        inversion 1 as [|? ? Hev _]; subst.
        destruct (Hev kc f Hin Hf) as [v Hv]. congruence.
Qed.

(** X20.  Loading a record that was read replaces the document, the file
    information and the modified flag, and leaves the formula bar and the
    active cell of the previous document in place.  Every sheet of the
    record arrives with its id, name, cell keys and the [value] and
    [formula] of every cell.  The load reports success exactly when every
    formula of every sheet evaluates, and only [ValueError] makes it fail. *)
Theorem load_spreadsheet_result (file_data : file_record) (st : session) :
  let st' := fst (load_spreadsheet (Ok file_data) st) in
  (snd (load_spreadsheet (Ok file_data) st) = true
   <-> Forall formulas_evaluate (sheets (data file_data)))
  /\ current_file st' = Some (info file_data)
  /\ is_modified st' = false
  /\ activeSheet (spreadsheet_data st') = activeSheet (data file_data)
  /\ formula_value st' = formula_value st
  /\ active_cell st' = active_cell st
  /\ Forall2 (fun s s' => id s' = id s /\ name s' = name s
                          /\ Forall2 same_key_only_cache_written (cells s) (cells s'))
             (sheets (data file_data)) (sheets (spreadsheet_data st')).
Proof.
  intros st'. subst st'. unfold load_spreadsheet.
  destruct (evaluate_sheets_spec (sheets (data file_data))) as (H1 & H2 & H3).
  destruct (evaluate_sheets (sheets (data file_data))) as [l r]. cbn [fst snd] in *.
  split.
  - rewrite <- H2. destruct r as [[]|e]; split; intros H; try reflexivity; discriminate.
  - repeat split. exact H1.
Qed.

End Interface_further.

(* ================================================================== *)
(** * The further statements at concrete inputs                        *)
(* ================================================================== *)


Lemma parse_formula_same_values_witness :
  parse_formula "=AVERAGE(A1:B2)" sample_sheet
  = parse_formula "=AVERAGE(A1:B2)" recached_sheet.
Proof.
  apply (parse_formula_same_values "=AVERAGE(A1:B2)" sample_sheet recached_sheet).
  intros r. cbn [sample_sheet recached_sheet sheet_of cells lookup literal].
  repeat (destruct (String.eqb _ r); [reflexivity|]). reflexivity.
Defined.



Lemma formula_sheet_evaluates : formulas_evaluate formula_sheet.
Proof.
  intros kc f [<- | [<- | [<- | []]]] Hf; try discriminate Hf.
  injection Hf as <-. eexists. reflexivity.
Qed.

Lemma evaluate_worksheet_formulas_idempotent_witness :
  evaluate_worksheet_formulas (fst (evaluate_worksheet_formulas formula_sheet))
  = evaluate_worksheet_formulas formula_sheet.
Proof.
  apply (evaluate_worksheet_formulas_idempotent formula_sheet).
  exact formula_sheet_evaluates.
Defined.

Lemma update_cell_writes_witness :
  is_modified (fst (update_cell "sheet1" "B2" clear_value initial_session)) = true.
Proof.
  destruct (update_cell_writes "sheet1" "B2" clear_value initial_session
              default_sheet eq_refl) as (H & _).
  exact H.
Defined.

Lemma edited_session_well_formed :
  ids_distinct edited_session /\ active_sheet_valid edited_session.
Proof.
  split.
  - repeat constructor; simpl; intuition discriminate.
  - right. left. reflexivity.
Qed.

Lemma remove_sheet_well_formed_witness :
  snd (remove_sheet "sheet2" edited_session) = Ok tt
  /\ sheets (spreadsheet_data (fst (remove_sheet "sheet2" edited_session))) <> []
  /\ ids_distinct (fst (remove_sheet "sheet2" edited_session))
  /\ active_sheet_valid (fst (remove_sheet "sheet2" edited_session))
  /\ ((1 < 2)%nat ->
        ~ In "sheet2" (sheet_ids (fst (remove_sheet "sheet2" edited_session)))).
Proof.
  apply (remove_sheet_well_formed "sheet2" edited_session);
    apply edited_session_well_formed.
Defined.

Lemma remove_sheet_unknown_id_witness :
  snd (remove_sheet "nosuch" edited_session) = Ok tt
  /\ spreadsheet_data (fst (remove_sheet "nosuch" edited_session))
     = spreadsheet_data edited_session
  /\ is_modified (fst (remove_sheet "nosuch" edited_session)) = true.
Proof.
  apply (remove_sheet_unknown_id "nosuch" edited_session).
  - apply edited_session_well_formed.
  - intros [H | [H | []]]; discriminate H.
  - simpl. lia.
Defined.

Lemma add_then_remove_sheet_witness :
  snd (remove_sheet "sheet2" (add_sheet initial_session)) = Ok tt
  /\ sheets (spreadsheet_data (fst (remove_sheet "sheet2" (add_sheet initial_session))))
     = sheets (spreadsheet_data initial_session)
  /\ activeSheet (spreadsheet_data (fst (remove_sheet "sheet2" (add_sheet initial_session))))
     = "sheet1"
  /\ is_modified (fst (remove_sheet "sheet2" (add_sheet initial_session))) = true.
Proof.
  apply (add_then_remove_sheet initial_session default_sheet []); [reflexivity|].
  intros [H | []]. discriminate H.
Defined.

Lemma commit_then_click_witness :
  formula_value (handle_cell_click "C1" (fst (commit_formula_value typing_session)))
  = PStr "=SUM(A1:A2)"
  /\ active_cell (handle_cell_click "C1" (fst (commit_formula_value typing_session)))
     = Some "C1"
  /\ is_modified (fst (commit_formula_value typing_session)) = true.
Proof.
  apply (commit_then_click typing_session default_sheet "C1"); reflexivity.
Defined.

Lemma display_after_literal_edit_witness :
  exists ws' c',
    find_sheet "sheet1"
      (sheets (spreadsheet_data
         (fst (update_cell "sheet1" "A1"
                 {| d_value := Some (PStr "12"); d_formula := Some PNone;
                    d_cachedValue := None |} initial_session)))) = Some ws'
    /\ lookup "A1" (cells ws') = Some c'
    /\ get_cell_display_value show_exact c' = "12".
Proof.
  apply (display_after_literal_edit show_exact "sheet1" "A1" (PStr "12")
           initial_session default_sheet).
  reflexivity.
Defined.

Lemma display_after_formula_edit_witness :
  exists ws' c' v,
    find_sheet "sheet1"
      (sheets (spreadsheet_data (fst (commit_formula_value typing_session)))) = Some ws'
    /\ lookup "C1" (cells ws') = Some c'
    /\ parse_formula "=SUM(A1:A2)" ws' = Ok v
    /\ get_cell_display_value show_exact c' = str_of_result show_exact v.
Proof.
  apply (display_after_formula_edit show_exact "sheet1" "C1" "=SUM(A1:A2)"
           typing_session (fst (commit_formula_value typing_session)) default_sheet);
    reflexivity.
Defined.

Lemma save_twice_witness :
  saved_as (fst (save_spreadsheet (PStr "Budget") "id-1" "t1" true initial_session))
           "id-1" "t1" "t1"
  /\ saved_as
       (fst (save_spreadsheet PNone "id-2" "t2" true
               (fst (save_spreadsheet (PStr "Budget") "id-1" "t1" true initial_session))))
       "id-1" "t1" "t2".
Proof.
  destruct (save_twice "Budget" PNone "id-1" "t1" "id-2" "t2" initial_session
              eq_refl eq_refl) as (H1 & H2 & _).
  split; [exact H1 | exact H2].
Defined.

(** The formula bar committed on an empty sheet: the sum of nothing is the
    integer 0, and the cell displays it as such. *)
Example display_of_committed_sum :
  option_map (get_cell_display_value show_exact)
    (option_map (fun ws => match lookup "C1" (cells ws) with
                           | Some c => c
                           | None => empty_cell
                           end)
       (find_sheet "sheet1"
          (sheets (spreadsheet_data (fst (commit_formula_value typing_session))))))
  = Some "0".
Proof. reflexivity. Qed.

Example display_of_evaluated_formula :
  map (fun kc => get_cell_display_value show_exact (snd kc))
      (cells (fst (evaluate_worksheet_formulas formula_sheet)))
  = ["1"; "2"; "3.0"].
Proof. reflexivity. Qed.

Example display_of_none_literal :
  get_cell_display_value show_exact
    {| value := Some PNone; formula := Some PNone; cachedValue := None |} = "None".
Proof. reflexivity. Qed.
